(** * express-local-library: the catalog controllers, embedded and verified

    The development follows the four controller sources:
      - the Author controller                      (module [AuthorController])
      - [controllers/bookController.js]            (module [BookController])
      - [controllers/bookInstanceController.js], whose form handlers are
        stubs                                      (module [BookInstanceStub])
      - the complete BookInstance controller       (module [BookInstanceController])

    A handler is a computation over the document store that records, in
    order, every call it makes on [res], on [next] and on [debug].  The
    validation middleware of express-validator is embedded as a stack of
    context items that is run against [req.body].  What the model layer
    does below a query (casting to the schema types, schema validation)
    is outside the embedding: a document holds the values its constructor
    was given. *)

From stdpp Require Import gmap strings list fin_maps sorting.
From Stdlib Require Import ZArith Ascii.

Local Open Scope string_scope.

(** ** JavaScript values found in a request body *)

(** A form field is absent ([undefined]), a string, or -- once a sanitizer
    has run -- a [Date] (its time value in milliseconds) or [null]. *)
Inductive value : Type :=
| VUndefined
| VNull
| VStr (s : string)
| VDate (t : Z).

#[global] Instance value_eq_dec : EqDecision value.
Proof. solve_decision. Defined.

(** JavaScript truthiness, restricted to the values above. *)
Definition truthy (v : value) : bool :=
  match v with
  | VUndefined | VNull => false
  | VStr s => negb (String.eqb s "")
  | VDate _ => true
  end.

(** ** Collaborators that are not part of the controller sources

    [isISO8601] and [Date_parse] belong to validator.js and the JavaScript
    runtime; [toISOString] is the runtime's rendering of a [Date];
    [author_url] and [bookinstance_url] are the [url] virtuals declared by
    the model files, which map an identifier to the canonical detail
    path. *)
Class Externals : Type := {
  isISO8601 : string -> bool;
  Date_parse : string -> option Z;
  toISOString : Z -> string;
  author_url : string -> string;
  bookinstance_url : string -> string
}.

(** ** validator.js: the string functions the chains call *)
Module validator.

(** [\s] on the ASCII range: tab, line feed, vertical tab, form feed,
    carriage return and space. *)
Definition is_space (c : ascii) : bool :=
  let n := nat_of_ascii c in
  Nat.eqb n 32 || (Nat.leb 9 n && Nat.leb n 13).

Fixpoint ltrim (s : string) : string :=
  match s with
  | EmptyString => EmptyString
  | String c s' => if is_space c then ltrim s' else s
  end.

Fixpoint rtrim (s : string) : string :=
  match s with
  | EmptyString => EmptyString
  | String c s' =>
      match rtrim s' with
      | EmptyString => if is_space c then EmptyString else String c EmptyString
      | t => String c t
      end
  end.

(** [str.replace(/^\s+|\s+$/g, '')] *)
Definition trim (s : string) : string := rtrim (ltrim s).

Definition escape_char (c : ascii) : string :=
  if Ascii.eqb c "&" then "&amp;"
  else if Ascii.eqb c "034" then "&quot;"
  else if Ascii.eqb c "'" then "&#x27;"
  else if Ascii.eqb c "<" then "&lt;"
  else if Ascii.eqb c ">" then "&gt;"
  else if Ascii.eqb c "/" then "&#x2F;"
  else if Ascii.eqb c "\" then "&#x5C;"
  else if Ascii.eqb c "`" then "&#96;"
  else String c EmptyString.

(** The eight chained [replace] calls of [escape]: no replacement text
    contains a character that a later call rewrites, so they amount to
    one pass over the characters. *)
Fixpoint escape (s : string) : string :=
  match s with
  | EmptyString => EmptyString
  | String c s' => escape_char c +:+ escape s'
  end.

(** [isLength(str, { min })] *)
Definition isLength (min : nat) (s : string) : bool :=
  Nat.leb min (String.length s).

Definition is_alnum (c : ascii) : bool :=
  let n := nat_of_ascii c in
  (Nat.leb 48 n && Nat.leb n 57)
  || (Nat.leb 65 n && Nat.leb n 90)
  || (Nat.leb 97 n && Nat.leb n 122).

Fixpoint all_alnum (s : string) : bool :=
  match s with
  | EmptyString => true
  | String c s' => is_alnum c && all_alnum s'
  end.

(** [/^[0-9A-Z]+$/i.test(str)] *)
Definition isAlphanumeric (s : string) : bool :=
  negb (String.eqb s "") && all_alnum s.

(** [toDate]: [Date.parse], and [null] when the text is not a date. *)
Definition toDate `{Externals} (s : string) : value :=
  match Date_parse s with
  | Some t => VDate t
  | None => VNull
  end.

End validator.

(** ** express-validator: validation chains over [req.body] *)
Module express_validator.

Inductive sanitizer : Type := San_trim | San_escape | San_toDate.

Inductive std_validator : Type :=
| Val_isLength (min : nat)
| Val_isAlphanumeric
| Val_isISO8601.

(** An item of a chain's stack.  A validation carries the message set by
    [withMessage], if any. *)
Inductive context_item : Type :=
| Sanitization (s : sanitizer)
| StandardValidation (v : std_validator) (message : option string).

Record ValidationChain : Type := mkChain {
  field : string;
  message : option string;   (* second argument of [body] *)
  optional_falsy : bool;     (* [.optional({ values: "falsy" })] *)
  stack : list context_item
}.

(** What [errors.array()] holds for a field of the body. *)
Record FieldValidationError : Type := mkError {
  path : string;
  msg : string;
  value_of : value
}.

(** *** Building a chain, one call per method of the source *)

Definition body (f : string) (m : option string) : ValidationChain :=
  mkChain f m false [].

Definition push (it : context_item) (c : ValidationChain) : ValidationChain :=
  mkChain (field c) (message c) (optional_falsy c) ((stack c ++ [it])%list).

Definition trim : ValidationChain -> ValidationChain :=
  push (Sanitization San_trim).
Definition escape : ValidationChain -> ValidationChain :=
  push (Sanitization San_escape).
Definition toDate : ValidationChain -> ValidationChain :=
  push (Sanitization San_toDate).
Definition isLength (min : nat) : ValidationChain -> ValidationChain :=
  push (StandardValidation (Val_isLength min) None).
Definition isAlphanumeric : ValidationChain -> ValidationChain :=
  push (StandardValidation Val_isAlphanumeric None).
Definition isISO8601_ : ValidationChain -> ValidationChain :=
  push (StandardValidation Val_isISO8601 None).

Definition optional (c : ValidationChain) : ValidationChain :=
  mkChain (field c) (message c) true (stack c).

(** [withMessage] sets the message of the last validator added, however
    many sanitizers were added after it.  The stack is scanned from its
    end; a stack without a validator is left as it is (the source never
    calls [withMessage] on one). *)
Fixpoint set_first_validator (m : string) (st : list context_item)
  : list context_item :=
  match st with
  | [] => []
  | StandardValidation v _ :: rest => StandardValidation v (Some m) :: rest
  | it :: rest => it :: set_first_validator m rest
  end.

Definition withMessage (m : string) (c : ValidationChain) : ValidationChain :=
  mkChain (field c) (message c) (optional_falsy c)
          (rev (set_first_validator m (rev (stack c)))).

(** *** Running a chain *)

(** The text a standard validator or sanitizer receives. *)
Definition toString `{Externals} (v : value) : string :=
  match v with
  | VStr s => s
  | VDate t => toISOString t
  | VUndefined | VNull => ""
  end.

Definition sanitize `{Externals} (s : sanitizer) (str : string) : value :=
  match s with
  | San_trim => VStr (validator.trim str)
  | San_escape => VStr (validator.escape str)
  | San_toDate => validator.toDate str
  end.

Definition validate `{Externals} (v : std_validator) (str : string) : bool :=
  match v with
  | Val_isLength min => validator.isLength min str
  | Val_isAlphanumeric => validator.isAlphanumeric str
  | Val_isISO8601 => isISO8601 str
  end.

(** [error.message || chain.message || 'Invalid value'] *)
Definition or_else (m : option string) (k : string) : string :=
  match m with
  | Some s => if String.eqb s "" then k else s
  | None => k
  end.

Definition error_message (c : ValidationChain) (m : option string) : string :=
  or_else m (or_else (message c) "Invalid value").

(** The items run in order on the field's current value.  When the chain
    is optional, an item is skipped while the current value is falsy.
    Every failing validator adds an error: nothing bails out. *)
Fixpoint run_stack `{Externals} (c : ValidationChain) (st : list context_item)
    (v : value) (errs : list FieldValidationError)
  : value * list FieldValidationError :=
  match st with
  | [] => (v, errs)
  | it :: rest =>
      if optional_falsy c && negb (truthy v) then run_stack c rest v errs
      else
        match it with
        | Sanitization s => run_stack c rest (sanitize s (toString v)) errs
        | StandardValidation val m =>
            if validate val (toString v) then run_stack c rest v errs
            else run_stack c rest v
                   ((errs ++ [mkError (field c) (error_message c m) v])%list)
        end
  end.

Definition get (b : gmap string value) (f : string) : value :=
  default VUndefined (b !! f).

(** The stack of a chain run on a field value, from no error. *)
Definition run_field `{Externals} (c : ValidationChain) (v : value)
  : value * list FieldValidationError :=
  run_stack c (stack c) v [].

(** A chain writes the field back only when its value changed, so an
    absent field that no item touched stays absent. *)
Definition run `{Externals} (c : ValidationChain) (b : gmap string value)
  : gmap string value * list FieldValidationError :=
  let v0 := get b (field c) in
  let r := run_field c v0 in
  (if decide (r.1 = v0) then b else <[field c := r.1]> b, r.2).

(** The chains of a route run one after the other on the same request;
    [validationResult] gathers their errors in that order. *)
Fixpoint run_all `{Externals} (cs : list ValidationChain) (b : gmap string value)
  : gmap string value * list FieldValidationError :=
  match cs with
  | [] => (b, [])
  | c :: rest =>
      let '(b1, e1) := run c b in
      let '(b2, e2) := run_all rest b1 in
      (b2, (e1 ++ e2)%list)
  end.

(** The chain that a route declares for a field, if any. *)
Fixpoint chain_for (g : string) (cs : list ValidationChain)
  : option ValidationChain :=
  match cs with
  | [] => None
  | c :: rest => if String.eqb (field c) g then Some c else chain_for g rest
  end.

(** *** What the chains of the routes compute, by kind of field

    [text]: a field that is trimmed and escaped.  [date]: an optional
    field turned into a [Date] unless it is falsy.  [nonblank]: the
    trimmed field passes [isLength({ min: 1 })].  [alnum]: the trimmed
    and escaped field passes [isAlphanumeric].  [date_ok]: an optional
    field is falsy or passes [isISO8601]. *)

Definition text `{Externals} (v : value) : value :=
  VStr (validator.escape (validator.trim (toString v))).

Definition date `{Externals} (v : value) : value :=
  if truthy v then validator.toDate (toString v) else v.

Definition nonblank `{Externals} (v : value) : bool :=
  validator.isLength 1 (validator.trim (toString v)).

Definition alnum `{Externals} (v : value) : bool :=
  validator.isAlphanumeric (validator.escape (validator.trim (toString v))).

Definition date_ok `{Externals} (v : value) : bool :=
  negb (truthy v) || isISO8601 (toString v).

End express_validator.

Notation "c |> f" := (f c) (at level 45, left associativity, only parsing).

(** ** The documents *)

Module Author.
Record t : Type := new {
  _id : string;
  first_name : value;
  family_name : value;
  date_of_birth : value;
  date_of_death : value
}.
End Author.

Module Genre.
Record t : Type := new { _id : string; name : string }.
End Genre.

Module Book.
Record t : Type := new {
  _id : string;
  title : string;
  author : string;         (* reference to an Author *)
  summary : string;
  isbn : string;
  genre : list string      (* references to Genres *)
}.

(** The projections ["title summary"] and ["title"] of a query. *)
Record title_summary : Type := mkTitleSummary {
  ts_id : string; ts_title : string; ts_summary : string
}.
Record title_only : Type := mkTitleOnly { to_id : string; to_title : string }.

(** A book whose [author] and [genre] references are populated. *)
Record populated : Type := mkPopulated {
  doc : t;
  author_doc : option Author.t;
  genre_docs : list Genre.t
}.
End Book.

Module BookInstance.
Record t : Type := new {
  _id : string;
  book : value;            (* reference to a Book *)
  imprint : value;
  status : value;
  due_back : value
}.

(** An instance whose [book] reference is populated ([null] when the
    reference resolves to nothing). *)
Record populated : Type := mkPopulated {
  doc : t;
  book_doc : option Book.t
}.
End BookInstance.

#[global] Instance error_eq_dec : EqDecision express_validator.FieldValidationError.
Proof. solve_decision. Defined.
#[global] Instance author_eq_dec : EqDecision Author.t.
Proof. solve_decision. Defined.
#[global] Instance genre_eq_dec : EqDecision Genre.t.
Proof. solve_decision. Defined.
#[global] Instance book_eq_dec : EqDecision Book.t.
Proof. solve_decision. Defined.
#[global] Instance bookinstance_eq_dec : EqDecision BookInstance.t.
Proof. solve_decision. Defined.

(** ** What a handler does to the outside world *)

(** An error object: [new Error(message)] with the [status] the handler
    sets on it, or the [TypeError] the runtime raises when [property] is
    read from [null] or called although it is not a function. *)
Inductive js_error : Type :=
| Error_ (message : string) (status : option nat)
| TypeError (property : string).

(** The values that appear in the data bag of [res.render]. *)
Inductive datum : Type :=
| DString (s : string)
| DAuthor (a : option Author.t)
| DBook (b : Book.populated)
| DBooks (l : list Book.t)
| DBookTitles (l : list Book.title_only)
| DBookSummaries (l : list Book.title_summary)
| DBookInstance (b : BookInstance.t)
| DBookInstances (l : list BookInstance.t)
| DPopulatedInstance (b : option BookInstance.populated)
| DPopulatedInstances (l : list BookInstance.populated)
| DErrors (l : list express_validator.FieldValidationError).

(** One call made by a handler: on [res], on [next], or on [debug]. *)
Inductive effect : Type :=
| Render (view : string) (locals : list (string * datum))
| Redirect (path : string)
| Next (err : js_error)
| Debug (line : string).

Definition is_render (e : effect) : bool :=
  match e with Render _ _ => true | _ => false end.

Definition is_debug (e : effect) : bool :=
  match e with Debug _ => true | _ => false end.

(** The calls of a handler without its debug lines. *)
Definition without_debug (l : list effect) : list effect :=
  List.filter (fun e => negb (is_debug e)) l.

(** The four collections, each indexed by [_id]. *)
Record database : Type := mkDatabase {
  authors : gmap string Author.t;
  books : gmap string Book.t;
  genres : gmap string Genre.t;
  bookinstances : gmap string BookInstance.t
}.

Record world : Type := mkWorld {
  db : database;
  calls : list effect
}.

Record request : Type := mkRequest {
  params_id : string;            (* [req.params.id] *)
  req_body : gmap string value   (* [req.body] *)
}.

(** *** The monad of an [async] function body *)

Inductive completion (A : Type) : Type :=
| Normal (a : A)
| Throw (e : js_error).
Arguments Normal {A} a.
Arguments Throw {A} e.

Definition async (A : Type) : Type := world -> completion A * world.

#[global] Instance async_ret : MRet async :=
  fun A a w => (Normal a, w).

#[global] Instance async_bind : MBind async :=
  fun A B f m w =>
    match m w with
    | (Normal a, w') => f a w'
    | (Throw e, w') => (Throw e, w')
    end.

#[global] Instance async_throw : MThrow js_error async :=
  fun A e w => (Throw e, w).

Definition emit (e : effect) : async unit :=
  fun w => (Normal tt, mkWorld (db w) (calls w ++ [e])%list).

Definition res_render (view : string) (locals : list (string * datum)) : async unit :=
  emit (Render view locals).
Definition res_redirect (p : string) : async unit := emit (Redirect p).
Definition next (err : js_error) : async unit := emit (Next err).
Definition debug (line : string) : async unit := emit (Debug line).

Definition read {A : Type} (f : database -> A) : async A :=
  fun w => (Normal (f (db w)), w).
Definition write (f : database -> database) : async unit :=
  fun w => (Normal tt, mkWorld (f (db w)) (calls w)).

(** A handler maps the store before the request to the store after it and
    the calls it made. *)
Definition handler : Type := database -> database * list effect.

(** [asyncHandler(fn)]: a rejection of [fn] is passed to [next]. *)
Definition asyncHandler (fn : async unit) : handler :=
  fun d =>
    match fn (mkWorld d []) with
    | (Normal _, w) => (db w, calls w)
    | (Throw e, w) => (db w, (calls w ++ [Next e])%list)
    end.

(** ** The queries of the models *)
Module Model.

Definition docs {A : Type} (m : gmap string A) : list A := (map_to_list m).*2.

Definition set_authors (f : gmap string Author.t -> gmap string Author.t)
    (d : database) : database :=
  mkDatabase (f (authors d)) (books d) (genres d) (bookinstances d).

Definition set_bookinstances
    (f : gmap string BookInstance.t -> gmap string BookInstance.t)
    (d : database) : database :=
  mkDatabase (authors d) (books d) (genres d) (f (bookinstances d)).

(** An identifier taken from the body selects the document stored under
    it; a value that is not a string is no document's identifier. *)
Definition remove_by_id {A : Type} (v : value) (m : gmap string A) : gmap string A :=
  match v with
  | VStr i => delete i m
  | _ => m
  end.

(** [Author.findById(id).exec()] *)
Definition Author_findById (id : string) : async (option Author.t) :=
  read (fun d => authors d !! id).

(** [author.save()] *)
Definition Author_save (a : Author.t) : async unit :=
  write (set_authors (insert (Author._id a) a)).

(** [Author.findByIdAndRemove(id)] *)
Definition Author_findByIdAndRemove (v : value) : async unit :=
  write (set_authors (remove_by_id v)).

(** [Author.findByIdAndUpdate(id, doc, {})]: the stored document takes the
    fields of [doc] and the call resolves to the document as it was
    before; without a match nothing is written and it resolves to
    [null]. *)
Definition Author_findByIdAndUpdate (id : string) (a : Author.t)
  : async (option Author.t) :=
  fun w =>
    match authors (db w) !! id with
    | Some old => (Normal (Some old), mkWorld (set_authors (insert id a) (db w)) (calls w))
    | None => (Normal None, w)
    end.

Definition project_title_summary (b : Book.t) : Book.title_summary :=
  Book.mkTitleSummary (Book._id b) (Book.title b) (Book.summary b).

Definition project_title (b : Book.t) : Book.title_only :=
  Book.mkTitleOnly (Book._id b) (Book.title b).

(** The books that reference the author [id], projected on their title
    and summary. *)
Definition books_by_author (d : database) (id : string) : list Book.title_summary :=
  project_title_summary <$>
    List.filter (fun b => String.eqb (Book.author b) id) (docs (books d)).

(** [Book.find({ author: id }, "title summary").exec()] *)
Definition Book_find_author (id : string) : async (list Book.title_summary) :=
  read (fun d => books_by_author d id).

(** [Book.find({}, "title").exec()] *)
Definition Book_find_titles : async (list Book.title_only) :=
  read (fun d => project_title <$> docs (books d)).

(** [Book.find()] *)
Definition Book_find : async (list Book.t) :=
  read (fun d => docs (books d)).

Definition populate_book (d : database) (b : Book.t) : Book.populated :=
  Book.mkPopulated b (authors d !! Book.author b)
    (omap (fun g => genres d !! g) (Book.genre b)).

(** [Book.findById(id).populate("author").populate("genre").exec()] *)
Definition Book_findById_populate (id : string) : async (option Book.populated) :=
  read (fun d => populate_book d <$> books d !! id).

Definition populate_instance (d : database) (i : BookInstance.t)
  : BookInstance.populated :=
  BookInstance.mkPopulated i
    (match BookInstance.book i with
     | VStr b => books d !! b
     | _ => None
     end).

(** [BookInstance.find().populate("book").exec()] *)
Definition BookInstance_find_populate : async (list BookInstance.populated) :=
  read (fun d => populate_instance d <$> docs (bookinstances d)).

(** [BookInstance.find({ book: id }).exec()] *)
Definition BookInstance_find_book (id : string) : async (list BookInstance.t) :=
  read (fun d =>
    List.filter (fun i => bool_decide (BookInstance.book i = VStr id))
      (docs (bookinstances d))).

(** [BookInstance.findById(id).exec()] *)
Definition BookInstance_findById (id : string) : async (option BookInstance.t) :=
  read (fun d => bookinstances d !! id).

(** [BookInstance.findById(id).populate("book").exec()] *)
Definition BookInstance_findById_populate (id : string)
  : async (option BookInstance.populated) :=
  read (fun d => populate_instance d <$> bookinstances d !! id).

(** [bookInstance.save()] *)
Definition BookInstance_save (i : BookInstance.t) : async unit :=
  write (set_bookinstances (insert (BookInstance._id i) i)).

(** [BookInstance.findByIdAndRemove(id)] *)
Definition BookInstance_findByIdAndRemove (v : value) : async unit :=
  write (set_bookinstances (remove_by_id v)).

(** [BookInstance.findByIdAndUpdate(id, doc, {})] *)
Definition BookInstance_findByIdAndUpdate (id : string) (i : BookInstance.t)
  : async (option BookInstance.t) :=
  fun w =>
    match bookinstances (db w) !! id with
    | Some old =>
        (Normal (Some old), mkWorld (set_bookinstances (insert id i) (db w)) (calls w))
    | None => (Normal None, w)
    end.

End Model.

(** ** The Author controller *)
Module AuthorController.
Import express_validator Model.

Section Handlers.
Context `{Externals}.

(** Display detail page for a specific Author. *)
Definition author_detail (req : request) : handler :=
  asyncHandler (
    author ← Author_findById (params_id req);
    allBooksByAuthor ← Book_find_author (params_id req);
    match author with
    | None =>
        debug ("id not found on get: " +:+ params_id req);;
        next (Error_ "Author not found" (Some 404))
    | Some _ =>
        res_render "index"
          [("title", DString "Author Detail");
           ("author", DAuthor author);
           ("author_books", DBookSummaries allBooksByAuthor);
           ("route", DString "author_detail.ejs")]
    end).

Definition author_create_post_chains : list ValidationChain :=
  [ body "first_name" None
      |> trim |> isLength 1 |> escape
      |> withMessage "First name must be specified."
      |> isAlphanumeric
      |> withMessage "First name has non-alphanumeric characters.";
    body "family_name" None
      |> trim |> isLength 1 |> escape
      |> withMessage "Family name must be specified."
      |> isAlphanumeric
      |> withMessage "Family name has non-alphanumeric characters.";
    body "date_of_birth" (Some "Invalid date of birth")
      |> optional |> isISO8601_ |> toDate;
    body "date_of_death" (Some "Invalid date of death")
      |> optional |> isISO8601_ |> toDate ].

(** Handle Author create on POST.  [oid] is the identifier that
    [new Author] gives the document. *)
Definition author_create_post (oid : string) (req : request) : handler :=
  let '(b, errors) := run_all author_create_post_chains (req_body req) in
  asyncHandler (
    let author :=
      Author.new oid (get b "first_name") (get b "family_name")
                 (get b "date_of_birth") (get b "date_of_death") in
    match errors with
    | _ :: _ =>
        res_render "index"
          [("title", DString "Create Author");
           ("author", DAuthor (Some author));
           ("errors", DErrors errors);
           ("route", DString "author_form.ejs")]
    | [] =>
        Author_save author;;
        res_redirect (author_url (Author._id author))
    end).

(** Display Author delete form on GET. *)
Definition author_delete_get (req : request) : handler :=
  asyncHandler (
    author ← Author_findById (params_id req);
    allBooksByAuthor ← Book_find_author (params_id req);
    match author with
    | None =>
        debug ("id not found on delete: " +:+ params_id req);;
        res_redirect "/catalog/authors"
    | Some _ => mret tt
    end;;
    res_render "index"
      [("title", DString "Delete Author");
       ("author", DAuthor author);
       ("author_books", DBookSummaries allBooksByAuthor);
       ("route", DString "author_delete.ejs")]).

(** Handle Author delete on POST. *)
Definition author_delete_post (req : request) : handler :=
  asyncHandler (
    author ← Author_findById (params_id req);
    allBooksByAuthor ← Book_find_author (params_id req);
    if Nat.ltb 0 (length allBooksByAuthor) then
      res_render "index"
        [("title", DString "Delete Author");
         ("author", DAuthor author);
         ("author_books", DBookSummaries allBooksByAuthor);
         ("route", DString "author_delete.ejs")]
    else
      Author_findByIdAndRemove (get (req_body req) "authorid");;
      res_redirect "/catalog/authors").

(** Display Author update form on GET. *)
Definition author_update_get (req : request) : handler :=
  asyncHandler (
    author ← Author_findById (params_id req);
    match author with
    | None =>
        debug ("id not found on update: " +:+ params_id req);;
        next (Error_ "author not found" (Some 404))
    | Some _ =>
        res_render "index"
          [("title", DString "Update Author");
           ("author", DAuthor author);
           ("route", DString "author_form.ejs")]
    end).

Definition author_update_post_chains : list ValidationChain :=
  [ body "first_name" (Some "First Name must not be empty.")
      |> trim |> isLength 1 |> escape;
    body "family_name" (Some "Family Name must not be empty")
      |> trim |> isLength 1 |> escape;
    body "date_of_birth" None |> trim |> escape;
    body "date_of_death" None |> trim |> escape ].

(** Handle Author update on POST. *)
Definition author_update_post (req : request) : handler :=
  let '(b, errors) := run_all author_update_post_chains (req_body req) in
  asyncHandler (
    let author :=
      Author.new (params_id req) (get b "first_name") (get b "family_name")
                 (get b "date_of_birth") (get b "date_of_death") in
    match errors with
    | _ :: _ =>
        res_render "index"
          [("title", DString "Update Author");
           ("author", DAuthor (Some author));
           ("errors", DErrors errors);
           ("route", DString "author_form.ejs")]
    | [] =>
        updatedAuthor ← Author_findByIdAndUpdate (params_id req) author;
        match updatedAuthor with
        | Some u => res_redirect (author_url (Author._id u))
        | None =>
            mthrow (TypeError "url")
        end
    end).

End Handlers.
End AuthorController.

(** ** controllers/bookController.js *)
Module BookController.
Import Model.

(** Display detail page for a specific book. *)
Definition book_detail (req : request) : handler :=
  asyncHandler (
    book ← Book_findById_populate (params_id req);
    bookInstances ← BookInstance_find_book (params_id req);
    match book with
    | None => next (Error_ "Book not found" (Some 404))
    | Some b =>
        res_render "index"
          [("title", DString (Book.title (Book.doc b)));
           ("book", DBook b);
           ("book_instances", DBookInstances bookInstances);
           ("route", DString "book_detail.ejs")]
    end).

End BookController.

(** ** controllers/bookInstanceController.js: list and detail, the rest are stubs *)
Module BookInstanceStub.
Import Model.

(** Display list of all BookInstances. *)
Definition bookinstance_list (req : request) : handler :=
  asyncHandler (
    allBookInstances ← BookInstance_find_populate;
    res_render "index"
      [("title", DString "Book Instance List");
       ("bookinstance_list", DPopulatedInstances allBookInstances);
       ("route", DString "bookinstance_list.ejs")]).

(** Display detail page for a specific BookInstance. *)
Definition bookinstance_detail (req : request) : handler :=
  asyncHandler (
    bookInstance ← BookInstance_findById_populate (params_id req);
    match bookInstance with
    | None => next (Error_ "Book copy not found" (Some 404))
    | Some _ =>
        res_render "index"
          [("title", DString "Book:");
           ("bookinstance", DPopulatedInstance bookInstance);
           ("route", DString "bookinstance_detail.ejs")]
    end).

End BookInstanceStub.

(** ** The complete BookInstance controller *)
Module BookInstanceController.
Import express_validator Model.

Section Handlers.
Context `{Externals}.

(** Display list of all BookInstances. *)
Definition bookinstance_list (req : request) : handler :=
  asyncHandler (
    allBookInstances ← BookInstance_find_populate;
    res_render "index"
      [("title", DString "Book Instance List");
       ("bookinstance_list", DPopulatedInstances allBookInstances);
       ("route", DString "bookinstance_list.ejs")]).

(** Display detail page for a specific BookInstance. *)
Definition bookinstance_detail (req : request) : handler :=
  asyncHandler (
    bookInstance ← BookInstance_findById_populate (params_id req);
    match bookInstance with
    | None =>
        debug ("id not found on get: " +:+ params_id req);;
        next (Error_ "Book copy not found" (Some 404))
    | Some _ =>
        res_render "index"
          [("title", DString "Book:");
           ("bookinstance", DPopulatedInstance bookInstance);
           ("route", DString "bookinstance_detail.ejs")]
    end).

(** Display BookInstance create form on GET. *)
Definition bookinstance_create_get (req : request) : handler :=
  asyncHandler (
    allBooks ← Book_find_titles;
    res_render "index"
      [("title", DString "Create BookInstance");
       ("book_list", DBookTitles allBooks);
       ("route", DString "bookinstance_form.ejs")]).

Definition bookinstance_create_post_chains : list ValidationChain :=
  [ body "book" (Some "Book must be specified")
      |> trim |> isLength 1 |> escape;
    body "imprint" (Some "Imprint must be specified")
      |> trim |> isLength 1 |> escape;
    body "status" None |> escape;
    body "due_back" (Some "Invalid date")
      |> optional |> isISO8601_ |> toDate ].

(** Handle BookInstance create on POST.  In the branch for a failed
    validation the argument list of [Book.find] calls [exec] on the
    string ["title"], which has no such method: the call throws before
    any query is made and before [res.render] is reached. *)
Definition bookinstance_create_post (oid : string) (req : request) : handler :=
  let '(b, errors) := run_all bookinstance_create_post_chains (req_body req) in
  asyncHandler (
    let bookInstance :=
      BookInstance.new oid (get b "book") (get b "imprint")
                       (get b "status") (get b "due_back") in
    match errors with
    | _ :: _ => mthrow (TypeError "exec")
    | [] =>
        BookInstance_save bookInstance;;
        res_redirect (bookinstance_url (BookInstance._id bookInstance))
    end).

(** Display BookInstance delete form on GET. *)
Definition bookinstance_delete_get (req : request) : handler :=
  asyncHandler (
    bookInstance ← BookInstance_findById_populate (params_id req);
    match bookInstance with
    | None =>
        debug ("id not found on delete: " +:+ params_id req);;
        res_redirect "/catalog/bookinstances"
    | Some _ => mret tt
    end;;
    res_render "index"
      [("title", DString "Delete Book Instance");
       ("book_instance", DPopulatedInstance bookInstance);
       ("route", DString "bookinstance_delete.ejs")]).

(** Handle BookInstance delete on POST. *)
Definition bookinstance_delete_post (req : request) : handler :=
  asyncHandler (
    bookInstance ← BookInstance_findById_populate (params_id req);
    match bookInstance with
    | None => res_redirect "/catalog/bookinstances"
    | Some _ =>
        BookInstance_findByIdAndRemove (get (req_body req) "bookinstanceid");;
        res_redirect "/catalog/bookinstances"
    end).

(** Display BookInstance update form on GET. *)
Definition bookinstance_update_get (req : request) : handler :=
  asyncHandler (
    bookInstance ← BookInstance_findById (params_id req);
    allBooks ← Book_find;
    match bookInstance with
    | None =>
        debug ("id not found on update: " +:+ params_id req);;
        next (Error_ "book instance not found" (Some 404))
    | Some i =>
        res_render "index"
          [("title", DString "Update Book Instance");
           ("bookinstance", DBookInstance i);
           ("book_list", DBooks allBooks);
           ("route", DString "bookinstance_form.ejs")]
    end).

Definition bookinstance_update_post_chains : list ValidationChain :=
  [ body "book" (Some "Book must not be empty.")
      |> trim |> isLength 1 |> escape;
    body "imprint" (Some "Imprint must not be empty")
      |> trim |> isLength 1 |> escape;
    body "due_back" (Some "Date must not be empty.")
      |> trim |> isLength 1 |> escape;
    body "status" (Some "Status must not be empty")
      |> trim |> isLength 1 |> escape ].

(** Handle BookInstance update on POST. *)
Definition bookinstance_update_post (req : request) : handler :=
  let '(b, errors) := run_all bookinstance_update_post_chains (req_body req) in
  asyncHandler (
    let bookInstance :=
      BookInstance.new (params_id req) (get b "book") (get b "imprint")
                       (get b "status") (get b "due_back") in
    match errors with
    | _ :: _ =>
        allBooks ← Book_find;
        res_render "index"
          [("title", DString "Update Book Instance");
           ("book_list", DBooks allBooks);
           ("errors", DErrors errors);
           ("route", DString "bookinstance_update.ejs")]
    | [] =>
        updatedBookInstance ←
          BookInstance_findByIdAndUpdate (params_id req) bookInstance;
        match updatedBookInstance with
        | Some u => res_redirect (bookinstance_url (BookInstance._id u))
        | None => mthrow (TypeError "url")
        end
    end).

End Handlers.
End BookInstanceController.

(** ** Sample data used to run the handlers *)
Module Sample.

(** Calendar dates [YYYY-MM-DD] only, parsed to a day count: enough to
    run the chains on concrete requests. *)
Definition is_digit (c : ascii) : bool :=
  let n := nat_of_ascii c in Nat.leb 48 n && Nat.leb n 57.

Definition calendar_date (s : string) : bool :=
  match s with
  | String y1 (String y2 (String y3 (String y4 (String d1
      (String m1 (String m2 (String d2 (String e1 (String e2 EmptyString))))))))) =>
      is_digit y1 && is_digit y2 && is_digit y3 && is_digit y4
      && Ascii.eqb d1 "-" && is_digit m1 && is_digit m2
      && Ascii.eqb d2 "-" && is_digit e1 && is_digit e2
  | _ => false
  end.

Definition externals : Externals := {|
  isISO8601 := calendar_date;
  Date_parse := fun s => if calendar_date s then Some (Z.of_nat (String.length s)) else None;
  toISOString := fun _ => "1970-01-01T00:00:00.000Z";
  author_url := fun i => "/catalog/author/" +:+ i;
  bookinstance_url := fun i => "/catalog/bookinstance/" +:+ i
|}.

Definition austen : Author.t :=
  Author.new "a1" (VStr "Jane") (VStr "Austen") VUndefined VUndefined.
Definition bronte : Author.t :=
  Author.new "a2" (VStr "Emily") (VStr "Bronte") VUndefined VUndefined.

Definition emma : Book.t :=
  Book.new "b1" "Emma" "a1" "A novel" "9780141439587" [].

Definition copy1 : BookInstance.t :=
  BookInstance.new "i1" (VStr "b1") (VStr "Penguin") (VStr "Available") VUndefined.
Definition copy2 : BookInstance.t :=
  BookInstance.new "i2" (VStr "b1") (VStr "Vintage") (VStr "Loaned") VUndefined.

(** Two authors, one book by the first of them, two copies of it. *)
Definition library : database :=
  mkDatabase {[ "a1" := austen; "a2" := bronte ]}
             {[ "b1" := emma ]}
             ∅
             {[ "i1" := copy1; "i2" := copy2 ]}.

(** The same authors with no book at all. *)
Definition no_books : database :=
  mkDatabase {[ "a1" := austen; "a2" := bronte ]} ∅ ∅ ∅.

(** Submitted forms. *)
Definition jane_form : gmap string value :=
  {[ "first_name" := VStr " Jane "; "family_name" := VStr "Austen";
     "date_of_birth" := VStr "1775-12-16" ]}.

Definition nameless_form : gmap string value :=
  {[ "first_name" := VStr ""; "family_name" := VStr "Austen" ]}.

Definition copy_form : gmap string value :=
  {[ "book" := VStr "b1"; "imprint" := VStr "Penguin";
     "status" := VStr "Available"; "due_back" := VStr "2024-05-01" ]}.

Definition copy_form_no_date : gmap string value :=
  {[ "book" := VStr "b1"; "imprint" := VStr "Penguin";
     "status" := VStr "Available"; "due_back" := VStr "" ]}.

Definition delete_form : gmap string value :=
  {[ "authorid" := VStr "a1"; "bookinstanceid" := VStr "i2" ]}.

End Sample.

(** ** The list handlers, the home page and the empty Author form

    [author_list] and [author_create_get] of the Author controller, [index]
    and [book_list] of [controllers/bookController.js].  They only read the
    store and call [res.render] once; their data bags hold lists and
    counts, so they are given a call type of their own. *)
Module Listing.
Import Model.

(** The order in which a query sorts the values of a field: an absent or
    [null] field first, then strings in binary order, then dates. *)
Definition bson_rank (v : value) : nat :=
  match v with
  | VUndefined | VNull => 0
  | VStr _ => 1
  | VDate _ => 2
  end.

Definition bson_leb (a b : value) : bool :=
  match a, b with
  | VStr s, VStr t => String.leb s t
  | VDate x, VDate y => Z.leb x y
  | _, _ => Nat.leb (bson_rank a) (bson_rank b)
  end.

(** [.sort({ key: 1 })], as an insertion sort on the key. *)
Fixpoint insert_by {A : Type} (key : A -> value) (x : A) (l : list A) : list A :=
  match l with
  | [] => [x]
  | y :: rest =>
      if bson_leb (key x) (key y) then x :: y :: rest
      else y :: insert_by key x rest
  end.

Definition sort_by {A : Type} (key : A -> value) (l : list A) : list A :=
  foldr (insert_by key) [] l.

(** A book of the list page: the projection ["title author"] with the
    author populated ([null] when the reference resolves to nothing). *)
Record listed_book : Type := mkListed {
  lb_id : string;
  lb_title : string;
  lb_author : option Author.t
}.

Inductive page_datum : Type :=
| PString (s : string)
| PNumber (n : nat)
| PAuthors (l : list Author.t)
| PBooks (l : list listed_book).

Inductive page_call : Type :=
| PageRender (view : string) (locals : list (string * page_datum)).

(** [Author.find().sort({ family_name: 1 }).exec()] *)
Definition Author_find_sorted (d : database) : list Author.t :=
  sort_by Author.family_name (docs (authors d)).

(** Display list of all Authors. *)
Definition author_list (req : request) (d : database) : database * list page_call :=
  let allAuthors := Author_find_sorted d in
  (d, [PageRender "index"
         [("title", PString "Author List");
          ("author_list", PAuthors allAuthors);
          ("route", PString "author_list.ejs")]]).

(** [Book.find({}, "title author").sort({ title: 1 }).populate("author").exec()] *)
Definition Book_find_sorted (d : database) : list listed_book :=
  (fun b => mkListed (Book._id b) (Book.title b) (authors d !! Book.author b))
    <$> sort_by (fun b => VStr (Book.title b)) (docs (books d)).

(** Display a list of all Books. *)
Definition book_list (req : request) (d : database) : database * list page_call :=
  let allBooks := Book_find_sorted d in
  (d, [PageRender "index"
         [("title", PString "Book List");
          ("book_list", PBooks allBooks);
          ("route", PString "book_list.ejs")]]).

(** [BookInstance.countDocuments({ status: "Available" })] *)
Definition available_count (d : database) : nat :=
  length (List.filter
            (fun i => bool_decide (BookInstance.status i = VStr "Available"))
            (docs (bookinstances d))).

(** The home page: the five counts. *)
Definition index (req : request) (d : database) : database * list page_call :=
  let numBooks := size (books d) in
  let numBookInstances := size (bookinstances d) in
  let numAvailableBookInstances := available_count d in
  let numAuthors := size (authors d) in
  let numGenres := size (genres d) in
  (d, [PageRender "index"
         [("title", PString "Local Library Home");
          ("book_count", PNumber numBooks);
          ("book_instance_count", PNumber numBookInstances);
          ("book_instance_available_count", PNumber numAvailableBookInstances);
          ("author_count", PNumber numAuthors);
          ("genre_count", PNumber numGenres);
          ("route", PString "home.ejs")]]).

(** Display Author create form on GET. *)
Definition author_create_get (req : request) : handler :=
  asyncHandler (
    res_render "index"
      [("title", DString "Create Author"); ("route", DString "author_form.ejs")]).

End Listing.

(** ** Vocabulary for the properties below *)
Module Facts.

(** The characters that [escape] rewrites, the ampersand apart (it opens
    every entity that [escape] writes). *)
Definition markup (c : ascii) : bool :=
  Ascii.eqb c "034" || Ascii.eqb c "'" || Ascii.eqb c "<" || Ascii.eqb c ">"
  || Ascii.eqb c "/" || Ascii.eqb c "\" || Ascii.eqb c "`".

Fixpoint markup_free (s : string) : bool :=
  match s with
  | EmptyString => true
  | String c s' => negb (markup c) && markup_free s'
  end.

Fixpoint all_space (s : string) : bool :=
  match s with
  | EmptyString => true
  | String c s' => validator.is_space c && all_space s'
  end.

(** Every book refers to a stored author. *)
Definition books_have_authors (d : database) : Prop :=
  forall i b, books d !! i = Some b -> is_Some (authors d !! Book.author b).

(** Two documents are in the order of a sort key. *)
Definition key_le {A : Type} (key : A -> value) (x y : A) : Prop :=
  Listing.bson_leb (key x) (key y) = true.

(** The calls that answer the request: everything but the debug lines. *)
Definition responses (r : database * list effect) : nat :=
  length (without_debug r.2).

End Facts.

(** * Properties of the controllers *)

(** Unfolds the monad of a handler body down to the store and the list of
    calls. *)
Ltac run_handler :=
  unfold asyncHandler, mbind, mret, mthrow, async_bind, async_ret, async_throw,
    res_render, res_redirect, next, debug, emit, read, write; simpl.

Section DetailHandlers.
Import Model.
Context `{Externals}.

Lemma author_detail_unknown req d :
  authors d !! params_id req = None ->
  AuthorController.author_detail req d
  = (d, [Debug ("id not found on get: " +:+ params_id req);
         Next (Error_ "Author not found" (Some 404))]).
Proof.
  intros Hnone. unfold AuthorController.author_detail, Author_findById, Book_find_author.
  run_handler. rewrite Hnone. destruct d; reflexivity.
Qed.

Lemma book_detail_unknown req d :
  books d !! params_id req = None ->
  BookController.book_detail req d
  = (d, [Next (Error_ "Book not found" (Some 404))]).
Proof.
  intros Hnone.
  unfold BookController.book_detail, Book_findById_populate, BookInstance_find_book.
  run_handler. rewrite Hnone. destruct d; reflexivity.
Qed.

Lemma bookinstance_detail_unknown req d :
  bookinstances d !! params_id req = None ->
  BookInstanceController.bookinstance_detail req d
  = (d, [Debug ("id not found on get: " +:+ params_id req);
         Next (Error_ "Book copy not found" (Some 404))]).
Proof.
  intros Hnone.
  unfold BookInstanceController.bookinstance_detail, BookInstance_findById_populate.
  run_handler. rewrite Hnone. destruct d; reflexivity.
Qed.

Lemma stub_detail_unknown req d :
  bookinstances d !! params_id req = None ->
  BookInstanceStub.bookinstance_detail req d
  = (d, [Next (Error_ "Book copy not found" (Some 404))]).
Proof.
  intros Hnone.
  unfold BookInstanceStub.bookinstance_detail, BookInstance_findById_populate.
  run_handler. rewrite Hnone. destruct d; reflexivity.
Qed.

Lemma bookinstance_detail_found req d i :
  bookinstances d !! params_id req = Some i ->
  BookInstanceController.bookinstance_detail req d
  = (d, [Render "index"
           [("title", DString "Book:");
            ("bookinstance", DPopulatedInstance (Some (populate_instance d i)));
            ("route", DString "bookinstance_detail.ejs")]]).
Proof.
  intros Hsome.
  unfold BookInstanceController.bookinstance_detail, BookInstance_findById_populate.
  run_handler. rewrite Hsome. destruct d; reflexivity.
Qed.

Lemma stub_detail_found req d i :
  bookinstances d !! params_id req = Some i ->
  BookInstanceStub.bookinstance_detail req d
  = (d, [Render "index"
           [("title", DString "Book:");
            ("bookinstance", DPopulatedInstance (Some (populate_instance d i)));
            ("route", DString "bookinstance_detail.ejs")]]).
Proof.
  intros Hsome.
  unfold BookInstanceStub.bookinstance_detail, BookInstance_findById_populate.
  run_handler. rewrite Hsome. destruct d; reflexivity.
Qed.

End DetailHandlers.

(** C2: a detail request (Author, Book, BookInstance) whose path identifier
    resolves to no stored document hands an error with status 404 to
    [next] and renders no view; for a BookInstance the error's message is
    "Book copy not found".  The store is left as it was. *)
Theorem detail_unknown_id_is_404 `{Externals} (req : request) (d : database) :
  (authors d !! params_id req = None ->
     AuthorController.author_detail req d
     = (d, [Debug ("id not found on get: " +:+ params_id req);
            Next (Error_ "Author not found" (Some 404))]))
  /\ (books d !! params_id req = None ->
        BookController.book_detail req d
        = (d, [Next (Error_ "Book not found" (Some 404))]))
  /\ (bookinstances d !! params_id req = None ->
        BookInstanceController.bookinstance_detail req d
        = (d, [Debug ("id not found on get: " +:+ params_id req);
               Next (Error_ "Book copy not found" (Some 404))])
        /\ BookInstanceStub.bookinstance_detail req d
           = (d, [Next (Error_ "Book copy not found" (Some 404))])).
Proof.
  split; [apply author_detail_unknown|].
  split; [apply book_detail_unknown|].
  intros Hnone. split.
  - by apply bookinstance_detail_unknown.
  - by apply stub_detail_unknown.
Qed.

Lemma detail_unknown_id_is_404_witness :
  (authors Sample.library !! "zz" = None
   /\ books Sample.library !! "zz" = None
   /\ bookinstances Sample.library !! "zz" = None)
  /\ (@AuthorController.author_detail (mkRequest "zz" ∅) Sample.library).2
     = [Debug "id not found on get: zz"; Next (Error_ "Author not found" (Some 404))]
  /\ (BookController.book_detail (mkRequest "zz" ∅) Sample.library).2
     = [Next (Error_ "Book not found" (Some 404))]
  /\ (BookInstanceController.bookinstance_detail (mkRequest "zz" ∅) Sample.library).2
     = [Debug "id not found on get: zz"; Next (Error_ "Book copy not found" (Some 404))].
Proof.
  assert (Ha : authors Sample.library !! "zz" = None) by reflexivity.
  assert (Hb : books Sample.library !! "zz" = None) by reflexivity.
  assert (Hi : bookinstances Sample.library !! "zz" = None) by reflexivity.
  destruct (@detail_unknown_id_is_404 Sample.externals (mkRequest "zz" ∅) Sample.library)
    as (Hauthor & Hbook & Hinst).
  split; [by repeat split|].
  rewrite (Hauthor Ha), (Hbook Hb), (proj1 (Hinst Hi)). by repeat split.
Defined.

(** C10: the two BookInstance controller modules agree on
    [bookinstance_list] and [bookinstance_detail].  The list handlers give
    the same result; the detail handlers leave the store alone and make the
    same calls once the debug lines are dropped: the same view when the
    instance exists, the same 404 error with message "Book copy not found"
    when it does not, where only the complete module logs a line. *)
Theorem bookinstance_modules_agree `{Externals} (req : request) (d : database) :
  BookInstanceStub.bookinstance_list req d
  = BookInstanceController.bookinstance_list req d
  /\ (BookInstanceStub.bookinstance_detail req d).1
     = (BookInstanceController.bookinstance_detail req d).1
  /\ (BookInstanceStub.bookinstance_detail req d).2
     = without_debug (BookInstanceController.bookinstance_detail req d).2
  /\ match bookinstances d !! params_id req with
     | Some i =>
         BookInstanceStub.bookinstance_detail req d
         = BookInstanceController.bookinstance_detail req d
         /\ (BookInstanceController.bookinstance_detail req d).2
            = [Render "index"
                 [("title", DString "Book:");
                  ("bookinstance",
                   DPopulatedInstance (Some (Model.populate_instance d i)));
                  ("route", DString "bookinstance_detail.ejs")]]
     | None =>
         (BookInstanceStub.bookinstance_detail req d).2
         = [Next (Error_ "Book copy not found" (Some 404))]
         /\ (BookInstanceController.bookinstance_detail req d).2
            = [Debug ("id not found on get: " +:+ params_id req);
               Next (Error_ "Book copy not found" (Some 404))]
     end.
Proof.
  split; [reflexivity|].
  destruct (bookinstances d !! params_id req) as [i|] eqn:Hlook.
  - rewrite (stub_detail_found _ _ _ Hlook), (bookinstance_detail_found _ _ _ Hlook).
    by repeat split.
  - rewrite (stub_detail_unknown _ _ Hlook), (bookinstance_detail_unknown _ _ Hlook).
    by repeat split.
Qed.

Section DeleteHandlers.
Import Model.

Lemma author_delete_post_blocked req d :
  books_by_author d (params_id req) <> [] ->
  AuthorController.author_delete_post req d
  = (d, [Render "index"
           [("title", DString "Delete Author");
            ("author", DAuthor (authors d !! params_id req));
            ("author_books", DBookSummaries (books_by_author d (params_id req)));
            ("route", DString "author_delete.ejs")]]).
Proof.
  intros Hdep.
  unfold AuthorController.author_delete_post, Author_findById, Book_find_author.
  run_handler.
  destruct (books_by_author d (params_id req)) as [|b l]; [done|].
  simpl. destruct d; reflexivity.
Qed.

Lemma author_delete_post_removes req d :
  books_by_author d (params_id req) = [] ->
  AuthorController.author_delete_post req d
  = (set_authors (remove_by_id (express_validator.get (req_body req) "authorid")) d,
     [Redirect "/catalog/authors"]).
Proof.
  intros Hdep.
  unfold AuthorController.author_delete_post, Author_findById, Book_find_author,
    Author_findByIdAndRemove.
  run_handler. rewrite Hdep. reflexivity.
Qed.

Lemma author_delete_get_unknown req d :
  authors d !! params_id req = None ->
  AuthorController.author_delete_get req d
  = (d, [Debug ("id not found on delete: " +:+ params_id req);
         Redirect "/catalog/authors";
         Render "index"
           [("title", DString "Delete Author");
            ("author", DAuthor None);
            ("author_books", DBookSummaries (books_by_author d (params_id req)));
            ("route", DString "author_delete.ejs")]]).
Proof.
  intros Hnone.
  unfold AuthorController.author_delete_get, Author_findById, Book_find_author.
  run_handler. rewrite Hnone. destruct d; reflexivity.
Qed.

Lemma bookinstance_delete_get_unknown req d :
  bookinstances d !! params_id req = None ->
  BookInstanceController.bookinstance_delete_get req d
  = (d, [Debug ("id not found on delete: " +:+ params_id req);
         Redirect "/catalog/bookinstances";
         Render "index"
           [("title", DString "Delete Book Instance");
            ("book_instance", DPopulatedInstance None);
            ("route", DString "bookinstance_delete.ejs")]]).
Proof.
  intros Hnone.
  unfold BookInstanceController.bookinstance_delete_get, BookInstance_findById_populate.
  run_handler. rewrite Hnone. destruct d; reflexivity.
Qed.

Lemma bookinstance_delete_post_found req d i :
  bookinstances d !! params_id req = Some i ->
  BookInstanceController.bookinstance_delete_post req d
  = (set_bookinstances
       (remove_by_id (express_validator.get (req_body req) "bookinstanceid")) d,
     [Redirect "/catalog/bookinstances"]).
Proof.
  intros Hsome.
  unfold BookInstanceController.bookinstance_delete_post,
    BookInstance_findById_populate, BookInstance_findByIdAndRemove.
  run_handler. rewrite Hsome. reflexivity.
Qed.

Lemma bookinstance_delete_post_unknown req d :
  bookinstances d !! params_id req = None ->
  BookInstanceController.bookinstance_delete_post req d
  = (d, [Redirect "/catalog/bookinstances"]).
Proof.
  intros Hnone.
  unfold BookInstanceController.bookinstance_delete_post,
    BookInstance_findById_populate.
  run_handler. rewrite Hnone. destruct d; reflexivity.
Qed.

End DeleteHandlers.

(** C1, as amended: on an Author delete POST the dependents are the Books
    that reference the path identifier, and the author that can be removed
    is the one named by the body field [authorid].  With at least one
    dependent Book nothing is removed and the confirmation view is rendered
    again with the dependent books listed; with none, the author named by
    [authorid] is removed and the response redirects to the author list.
    So a stored author named by [authorid] is gone afterwards if and only
    if no Book references the path identifier. *)
Theorem author_delete_post_by_dependents (req : request) (d : database) (bid : string) :
  express_validator.get (req_body req) "authorid" = VStr bid ->
  let dependents := Model.books_by_author d (params_id req) in
  (dependents <> [] ->
     AuthorController.author_delete_post req d
     = (d, [Render "index"
              [("title", DString "Delete Author");
               ("author", DAuthor (authors d !! params_id req));
               ("author_books", DBookSummaries dependents);
               ("route", DString "author_delete.ejs")]]))
  /\ (dependents = [] ->
        AuthorController.author_delete_post req d
        = (Model.set_authors (delete bid) d, [Redirect "/catalog/authors"]))
  /\ (is_Some (authors d !! bid) ->
        authors (AuthorController.author_delete_post req d).1 !! bid = None
        <-> length dependents = 0).
Proof.
  intros Hbody dependents. split; [|split].
  - apply author_delete_post_blocked.
  - intros Hdep. rewrite (author_delete_post_removes _ _ Hdep), Hbody. reflexivity.
  - intros [a Ha]. destruct dependents as [|b l] eqn:Hdep.
    + rewrite (author_delete_post_removes _ _ Hdep), Hbody. simpl.
      rewrite lookup_delete_eq. done.
    + rewrite author_delete_post_blocked.
      * simpl. rewrite Ha. split; [done | intros Hlen; discriminate Hlen].
      * fold dependents in Hdep. unfold dependents in Hdep. rewrite Hdep. done.
Qed.

Lemma author_delete_post_by_dependents_witness :
  (express_validator.get ({[ "authorid" := VStr "a2" ]} : gmap string value) "authorid"
   = VStr "a2"
   /\ Model.books_by_author Sample.library "a2" = []
   /\ Model.books_by_author Sample.library "a1" <> []
   /\ is_Some (authors Sample.library !! "a2"))
  /\ AuthorController.author_delete_post
       (mkRequest "a2" {[ "authorid" := VStr "a2" ]}) Sample.library
     = (Model.set_authors (delete "a2") Sample.library, [Redirect "/catalog/authors"])
  /\ (AuthorController.author_delete_post
        (mkRequest "a1" {[ "authorid" := VStr "a2" ]}) Sample.library).1
     = Sample.library
  /\ authors
       (AuthorController.author_delete_post
          (mkRequest "a2" {[ "authorid" := VStr "a2" ]}) Sample.library).1 !! "a2"
     = None.
Proof.
  assert (Hnone : Model.books_by_author Sample.library "a2" = []) by reflexivity.
  assert (Hsome : Model.books_by_author Sample.library "a1" <> [])
    by (vm_compute; discriminate).
  assert (Hstored : is_Some (authors Sample.library !! "a2"))
    by (exists Sample.bronte; reflexivity).
  assert (Hbody : express_validator.get
            ({[ "authorid" := VStr "a2" ]} : gmap string value) "authorid" = VStr "a2")
    by reflexivity.
  split; [by repeat split|].
  destruct (author_delete_post_by_dependents
              (mkRequest "a2" {[ "authorid" := VStr "a2" ]}) Sample.library "a2" Hbody)
    as (_ & Hremoved & Hiff).
  destruct (author_delete_post_by_dependents
              (mkRequest "a1" {[ "authorid" := VStr "a2" ]}) Sample.library "a2" Hbody)
    as (Hblocked & _).
  split; [exact (Hremoved Hnone)|]. split.
  - rewrite (Hblocked Hsome). reflexivity.
  - apply (Hiff Hstored). reflexivity.
Defined.

(** C1 as stated fails: the request below is made against author [a1], who
    has no Book, yet [a1] is still stored afterwards -- the author that is
    removed is [a2], the one the body names. *)
Lemma author_delete_post_keeps_path_author :
  length (Model.books_by_author Sample.no_books "a1") = 0
  /\ authors Sample.no_books !! "a1" = Some Sample.austen
  /\ authors
       (AuthorController.author_delete_post
          (mkRequest "a1" {[ "authorid" := VStr "a2" ]}) Sample.no_books).1 !! "a1"
     = Some Sample.austen
  /\ authors
       (AuthorController.author_delete_post
          (mkRequest "a1" {[ "authorid" := VStr "a2" ]}) Sample.no_books).1 !! "a2"
     = None
  /\ (AuthorController.author_delete_post
        (mkRequest "a1" {[ "authorid" := VStr "a2" ]}) Sample.no_books).2
     = [Redirect "/catalog/authors"].
Proof. vm_compute. by repeat split. Qed.

(** C7: on a delete GET whose path identifier resolves to nothing, the
    handlers do redirect to the list view, but the branch does not return:
    the confirmation view is rendered as well, with a [null] entity.
    Evaluated on an unknown identifier, for both controllers. *)
Theorem delete_get_unknown_id_falls_through :
  AuthorController.author_delete_get (mkRequest "zz" ∅) Sample.library
  = (Sample.library,
     [Debug "id not found on delete: zz";
      Redirect "/catalog/authors";
      Render "index"
        [("title", DString "Delete Author");
         ("author", DAuthor None);
         ("author_books", DBookSummaries []);
         ("route", DString "author_delete.ejs")]])
  /\ BookInstanceController.bookinstance_delete_get (mkRequest "zz" ∅) Sample.library
     = (Sample.library,
        [Debug "id not found on delete: zz";
         Redirect "/catalog/bookinstances";
         Render "index"
           [("title", DString "Delete Book Instance");
            ("book_instance", DPopulatedInstance None);
            ("route", DString "bookinstance_delete.ejs")]]).
Proof.
  split.
  - rewrite author_delete_get_unknown by reflexivity. reflexivity.
  - rewrite bookinstance_delete_get_unknown by reflexivity. reflexivity.
Qed.

(** C9: a delete POST checks the path identifier and removes the document
    named in the body.  For an Author the check is that no Book references
    the path identifier, and the document removed is the one named by
    [authorid]; for a BookInstance the check is that the path identifier
    resolves, and the document removed is the one named by
    [bookinstanceid].  When the check on the path identifier fails, nothing
    is removed, whatever the body names.  When the two identifiers differ,
    the document that was checked is still stored afterwards and the one
    the body names is not. *)
Theorem delete_post_removes_body_document (req : request) (d : database) (bid : string) :
  (express_validator.get (req_body req) "authorid" = VStr bid ->
   Model.books_by_author d (params_id req) = [] ->
   let after := (AuthorController.author_delete_post req d).1 in
   authors after = delete bid (authors d)
   /\ (bid <> params_id req ->
       authors after !! params_id req = authors d !! params_id req
       /\ authors after !! bid = None))
  /\ (Model.books_by_author d (params_id req) <> [] ->
      (AuthorController.author_delete_post req d).1 = d)
  /\ (express_validator.get (req_body req) "bookinstanceid" = VStr bid ->
      is_Some (bookinstances d !! params_id req) ->
      let after := (BookInstanceController.bookinstance_delete_post req d).1 in
      bookinstances after = delete bid (bookinstances d)
      /\ (bid <> params_id req ->
          bookinstances after !! params_id req = bookinstances d !! params_id req
          /\ bookinstances after !! bid = None))
  /\ (bookinstances d !! params_id req = None ->
      (BookInstanceController.bookinstance_delete_post req d).1 = d).
Proof.
  split; [|split; [|split]].
  - intros Hbody Hdep. rewrite (author_delete_post_removes _ _ Hdep), Hbody. simpl.
    split; [reflexivity|]. intros Hne.
    by rewrite lookup_delete_ne, lookup_delete_eq.
  - intros Hdep. by rewrite (author_delete_post_blocked _ _ Hdep).
  - intros Hbody [i Hi]. rewrite (bookinstance_delete_post_found _ _ _ Hi), Hbody. simpl.
    split; [reflexivity|]. intros Hne.
    by rewrite lookup_delete_ne, lookup_delete_eq.
  - intros Hnone. by rewrite (bookinstance_delete_post_unknown _ _ Hnone).
Qed.

Lemma delete_post_removes_body_document_witness :
  (express_validator.get Sample.delete_form "authorid" = VStr "a1"
   /\ express_validator.get Sample.delete_form "bookinstanceid" = VStr "i2"
   /\ Model.books_by_author Sample.library "a2" = []
   /\ Model.books_by_author Sample.library "a1" <> []
   /\ "a1" <> "a2"
   /\ is_Some (bookinstances Sample.library !! "i1")
   /\ bookinstances Sample.library !! "zz" = None
   /\ "i2" <> "i1")
  /\ authors
       (AuthorController.author_delete_post
          (mkRequest "a2" Sample.delete_form) Sample.library).1 !! "a2"
     = Some Sample.bronte
  /\ authors
       (AuthorController.author_delete_post
          (mkRequest "a2" Sample.delete_form) Sample.library).1 !! "a1"
     = None
  /\ (AuthorController.author_delete_post
        (mkRequest "a1" Sample.delete_form) Sample.library).1
     = Sample.library
  /\ bookinstances
       (BookInstanceController.bookinstance_delete_post
          (mkRequest "i1" Sample.delete_form) Sample.library).1 !! "i1"
     = Some Sample.copy1
  /\ bookinstances
       (BookInstanceController.bookinstance_delete_post
          (mkRequest "i1" Sample.delete_form) Sample.library).1 !! "i2"
     = None
  /\ (BookInstanceController.bookinstance_delete_post
        (mkRequest "zz" Sample.delete_form) Sample.library).1
     = Sample.library.
Proof.
  assert (Hbody_a : express_validator.get Sample.delete_form "authorid" = VStr "a1")
    by reflexivity.
  assert (Hbody_i : express_validator.get Sample.delete_form "bookinstanceid" = VStr "i2")
    by reflexivity.
  assert (Hfree : Model.books_by_author Sample.library "a2" = []) by reflexivity.
  assert (Hbusy : Model.books_by_author Sample.library "a1" <> [])
    by (vm_compute; discriminate).
  assert (Hne_a : "a1" <> "a2") by discriminate.
  assert (Hne_i : "i2" <> "i1") by discriminate.
  assert (Hsome : is_Some (bookinstances Sample.library !! "i1"))
    by (exists Sample.copy1; reflexivity).
  assert (Hnone : bookinstances Sample.library !! "zz" = None) by reflexivity.
  split; [by repeat split|].
  destruct (delete_post_removes_body_document
              (mkRequest "a2" Sample.delete_form) Sample.library "a1")
    as (Hauthor & _).
  destruct (Hauthor Hbody_a Hfree) as (_ & Hkept_a).
  destruct (Hkept_a Hne_a) as (Hsame_a & Hgone_a).
  destruct (delete_post_removes_body_document
              (mkRequest "a1" Sample.delete_form) Sample.library "a1")
    as (_ & Hblocked & _).
  destruct (delete_post_removes_body_document
              (mkRequest "i1" Sample.delete_form) Sample.library "i2")
    as (_ & _ & Hinst & _).
  destruct (Hinst Hbody_i Hsome) as (_ & Hkept_i).
  destruct (Hkept_i Hne_i) as (Hsame_i & Hgone_i).
  destruct (delete_post_removes_body_document
              (mkRequest "zz" Sample.delete_form) Sample.library "i2")
    as (_ & _ & _ & Hmissing).
  split; [exact Hsame_a|]. split; [exact Hgone_a|]. split; [exact (Hblocked Hbusy)|].
  split; [exact Hsame_i|]. split; [exact Hgone_i|]. exact (Hmissing Hnone).
Defined.

(** ** The validation chains *)
Section Chains.
Import express_validator.
Context `{Externals}.

Lemma get_insert (b : gmap string value) f g v :
  get (<[f := v]> b) g = if decide (f = g) then v else get b g.
Proof.
  unfold get. destruct (decide (f = g)) as [->|Hne].
  - by rewrite lookup_insert_eq.
  - by rewrite lookup_insert_ne.
Qed.

(** A chain changes its own field only. *)
Lemma run_get c b g :
  get (run c b).1 g
  = if decide (field c = g) then (run_field c (get b (field c))).1 else get b g.
Proof.
  unfold run. simpl.
  destruct (decide ((run_field c (get b (field c))).1 = get b (field c))) as [Heq|Hne].
  - destruct (decide (field c = g)) as [<-|]; [by rewrite Heq | done].
  - apply get_insert.
Qed.

Lemma chain_for_absent g cs : g ∉ field <$> cs -> chain_for g cs = None.
Proof.
  induction cs as [|c rest IH]; [done|]. simpl. intros Hnot.
  apply not_elem_of_cons in Hnot as [Hne Hrest].
  destruct (String.eqb_spec (field c) g) as [Heq|_]; [by subst | by apply IH].
Qed.

Lemma run_all_cons c rest b :
  run_all (c :: rest) b
  = ((run_all rest (run c b).1).1,
     ((run c b).2 ++ (run_all rest (run c b).1).2)%list).
Proof.
  cbn [run_all]. destruct (run c b) as [b1 e1].
  cbn [fst snd]. by destruct (run_all rest b1).
Qed.

(** When the chains of a route are declared for distinct fields, each
    field ends up with what its own chain makes of the submitted value,
    and the errors are those of each chain on the submitted value. *)
Lemma run_all_get cs b g :
  NoDup (field <$> cs) ->
  get (run_all cs b).1 g
  = match chain_for g cs with
    | Some c => (run_field c (get b g)).1
    | None => get b g
    end.
Proof.
  revert b. induction cs as [|c rest IH]; intros b Hnd; [done|].
  rewrite fmap_cons in Hnd. apply NoDup_cons in Hnd as [Hfresh Hrest].
  rewrite run_all_cons. cbn [fst chain_for].
  rewrite (IH _ Hrest), run_get.
  destruct (String.eqb_spec (field c) g) as [Heq|Hne].
  - subst g. rewrite (chain_for_absent _ _ Hfresh). by rewrite decide_True.
  - by rewrite decide_False.
Qed.

Lemma run_all_errors cs b :
  NoDup (field <$> cs) ->
  (run_all cs b).2 = flat_map (fun c => (run_field c (get b (field c))).2) cs.
Proof.
  revert b. induction cs as [|c rest IH]; intros b Hnd; [done|].
  rewrite fmap_cons in Hnd. apply NoDup_cons in Hnd as [Hfresh Hrest].
  rewrite run_all_cons. cbn [snd flat_map].
  rewrite (IH _ Hrest). f_equal.
  rewrite !flat_map_concat_map. f_equal.
  apply map_ext_in. intros c' Hin.
  rewrite run_get, decide_False; [done|].
  intros Heq. apply Hfresh. rewrite Heq. apply list_elem_of_fmap. exists c'.
  split; [done|]. by apply list_elem_of_In.
Qed.

(** *** The five shapes of chain that the routes use *)

Lemma run_field_required f m v :
  run_field (body f m |> trim |> isLength 1 |> escape) v
  = (text v,
     if nonblank v then []
     else [mkError f (error_message (body f m) None)
             (VStr (validator.trim (toString v)))]).
Proof.
  unfold run_field, nonblank.
  cbn -[validator.isLength validator.trim validator.escape].
  destruct (validator.isLength 1 (validator.trim (toString v))); reflexivity.
Qed.

Lemma run_field_name f m1 m2 v :
  run_field (body f None |> trim |> isLength 1 |> escape |> withMessage m1
               |> isAlphanumeric |> withMessage m2) v
  = (text v,
     (if nonblank v then []
      else [mkError f (error_message (body f None) (Some m1))
              (VStr (validator.trim (toString v)))])
     ++ (if alnum v then []
         else [mkError f (error_message (body f None) (Some m2)) (text v)]))%list.
Proof.
  unfold run_field, nonblank, alnum.
  cbn -[validator.isLength validator.isAlphanumeric validator.trim validator.escape].
  destruct (validator.isLength 1 (validator.trim (toString v)));
    destruct (validator.isAlphanumeric _); reflexivity.
Qed.

Lemma run_field_date f m v :
  run_field (body f m |> optional |> isISO8601_ |> toDate) v
  = (date v,
     if date_ok v then []
     else [mkError f (error_message (body f m) None) v]).
Proof.
  unfold run_field, date, date_ok.
  destruct v as [| |[|a s]|t]; cbn; try reflexivity;
    destruct (isISO8601 _); reflexivity.
Qed.

Lemma run_field_escape f m v :
  run_field (body f m |> escape) v = (VStr (validator.escape (toString v)), []).
Proof. reflexivity. Qed.

Lemma run_field_trim_escape f m v :
  run_field (body f m |> trim |> escape) v = (text v, []).
Proof. reflexivity. Qed.

End Chains.

(** ** The four validated routes *)
Section Routes.
Import express_validator Model.
Context `{Externals}.

Ltac chains_nodup := by apply (bool_decide_unpack _).

Ltac fields :=
  cbn [snd field body trim isLength escape withMessage isAlphanumeric
       optional isISO8601_ toDate push].

Ltac accept_cases :=
  repeat match goal with
         | |- context [if ?c then _ else _] => destruct c
         end;
  cbn; split; (done || discriminate || (intros; exfalso; done)).

Lemma author_create_values b :
  let b' := (run_all AuthorController.author_create_post_chains b).1 in
  get b' "first_name" = text (get b "first_name")
  /\ get b' "family_name" = text (get b "family_name")
  /\ get b' "date_of_birth" = date (get b "date_of_birth")
  /\ get b' "date_of_death" = date (get b "date_of_death").
Proof.
  cbn zeta. rewrite !run_all_get by chains_nodup.
  repeat split.
  - exact (f_equal fst (run_field_name _ _ _ _)).
  - exact (f_equal fst (run_field_name _ _ _ _)).
  - exact (f_equal fst (run_field_date _ _ _)).
  - exact (f_equal fst (run_field_date _ _ _)).
Qed.

Lemma author_create_accepts b :
  (run_all AuthorController.author_create_post_chains b).2 = []
  <-> nonblank (get b "first_name") && alnum (get b "first_name")
      && nonblank (get b "family_name") && alnum (get b "family_name")
      && date_ok (get b "date_of_birth") && date_ok (get b "date_of_death") = true.
Proof.
  rewrite run_all_errors by chains_nodup.
  unfold AuthorController.author_create_post_chains. cbn [flat_map].
  rewrite !run_field_name, !run_field_date. fields.
  accept_cases.
Qed.

Lemma author_update_values b :
  let b' := (run_all AuthorController.author_update_post_chains b).1 in
  get b' "first_name" = text (get b "first_name")
  /\ get b' "family_name" = text (get b "family_name")
  /\ get b' "date_of_birth" = text (get b "date_of_birth")
  /\ get b' "date_of_death" = text (get b "date_of_death").
Proof.
  cbn zeta. rewrite !run_all_get by chains_nodup.
  repeat split.
  - exact (f_equal fst (run_field_required _ _ _)).
  - exact (f_equal fst (run_field_required _ _ _)).
Qed.

Lemma author_update_accepts b :
  (run_all AuthorController.author_update_post_chains b).2 = []
  <-> nonblank (get b "first_name") && nonblank (get b "family_name") = true.
Proof.
  rewrite run_all_errors by chains_nodup.
  unfold AuthorController.author_update_post_chains. cbn [flat_map].
  rewrite !run_field_required, !run_field_trim_escape. fields.
  accept_cases.
Qed.

Lemma bookinstance_create_values b :
  let b' := (run_all BookInstanceController.bookinstance_create_post_chains b).1 in
  get b' "book" = text (get b "book")
  /\ get b' "imprint" = text (get b "imprint")
  /\ get b' "status" = VStr (validator.escape (toString (get b "status")))
  /\ get b' "due_back" = date (get b "due_back").
Proof.
  cbn zeta. rewrite !run_all_get by chains_nodup.
  repeat split.
  - exact (f_equal fst (run_field_required _ _ _)).
  - exact (f_equal fst (run_field_required _ _ _)).
  - exact (f_equal fst (run_field_date _ _ _)).
Qed.

Lemma bookinstance_create_accepts b :
  (run_all BookInstanceController.bookinstance_create_post_chains b).2 = []
  <-> nonblank (get b "book") && nonblank (get b "imprint")
      && date_ok (get b "due_back") = true.
Proof.
  rewrite run_all_errors by chains_nodup.
  unfold BookInstanceController.bookinstance_create_post_chains. cbn [flat_map].
  rewrite !run_field_required, run_field_escape, run_field_date. fields.
  accept_cases.
Qed.

Lemma bookinstance_update_values b :
  let b' := (run_all BookInstanceController.bookinstance_update_post_chains b).1 in
  get b' "book" = text (get b "book")
  /\ get b' "imprint" = text (get b "imprint")
  /\ get b' "status" = text (get b "status")
  /\ get b' "due_back" = text (get b "due_back").
Proof.
  cbn zeta. rewrite !run_all_get by chains_nodup.
  repeat split; exact (f_equal fst (run_field_required _ _ _)).
Qed.

Lemma bookinstance_update_accepts b :
  (run_all BookInstanceController.bookinstance_update_post_chains b).2 = []
  <-> nonblank (get b "book") && nonblank (get b "imprint")
      && nonblank (get b "due_back") && nonblank (get b "status") = true.
Proof.
  rewrite run_all_errors by chains_nodup.
  unfold BookInstanceController.bookinstance_update_post_chains. cbn [flat_map].
  rewrite !run_field_required. fields.
  accept_cases.
Qed.

(** *** The handlers behind the chains *)

Lemma author_create_post_valid oid req d :
  (run_all AuthorController.author_create_post_chains (req_body req)).2 = [] ->
  AuthorController.author_create_post oid req d
  = (set_authors
       (insert oid
          (Author.new oid
             (text (get (req_body req) "first_name"))
             (text (get (req_body req) "family_name"))
             (date (get (req_body req) "date_of_birth"))
             (date (get (req_body req) "date_of_death")))) d,
     [Redirect (author_url oid)]).
Proof.
  intros Herr. pose proof (author_create_values (req_body req)) as Hvals.
  cbn zeta in Hvals. unfold AuthorController.author_create_post.
  revert Herr Hvals.
  destruct (run_all _ (req_body req)) as [b errors]. cbn [fst snd].
  intros -> (-> & -> & -> & ->). reflexivity.
Qed.

Lemma author_create_post_invalid oid req d :
  (run_all AuthorController.author_create_post_chains (req_body req)).2 <> [] ->
  AuthorController.author_create_post oid req d
  = (d,
     [Render "index"
        [("title", DString "Create Author");
         ("author",
          DAuthor (Some (Author.new oid
                           (text (get (req_body req) "first_name"))
                           (text (get (req_body req) "family_name"))
                           (date (get (req_body req) "date_of_birth"))
                           (date (get (req_body req) "date_of_death")))));
         ("errors",
          DErrors (run_all AuthorController.author_create_post_chains
                     (req_body req)).2);
         ("route", DString "author_form.ejs")]]).
Proof.
  intros Herr. pose proof (author_create_values (req_body req)) as Hvals.
  cbn zeta in Hvals. unfold AuthorController.author_create_post.
  revert Herr Hvals.
  destruct (run_all _ (req_body req)) as [b errors]. cbn [fst snd].
  intros Herr (-> & -> & -> & ->).
  destruct errors as [|e errors]; [done|]. destruct d; reflexivity.
Qed.

Lemma bookinstance_create_post_valid oid req d :
  (run_all BookInstanceController.bookinstance_create_post_chains (req_body req)).2 = [] ->
  BookInstanceController.bookinstance_create_post oid req d
  = (set_bookinstances
       (insert oid
          (BookInstance.new oid
             (text (get (req_body req) "book"))
             (text (get (req_body req) "imprint"))
             (VStr (validator.escape (toString (get (req_body req) "status"))))
             (date (get (req_body req) "due_back")))) d,
     [Redirect (bookinstance_url oid)]).
Proof.
  intros Herr. pose proof (bookinstance_create_values (req_body req)) as Hvals.
  cbn zeta in Hvals. unfold BookInstanceController.bookinstance_create_post.
  revert Herr Hvals.
  destruct (run_all _ (req_body req)) as [b errors]. cbn [fst snd].
  intros -> (-> & -> & -> & ->). reflexivity.
Qed.

Lemma bookinstance_create_post_invalid oid req d :
  (run_all BookInstanceController.bookinstance_create_post_chains (req_body req)).2 <> [] ->
  BookInstanceController.bookinstance_create_post oid req d
  = (d, [Next (TypeError "exec")]).
Proof.
  intros Herr. unfold BookInstanceController.bookinstance_create_post.
  revert Herr. destruct (run_all _ (req_body req)) as [b errors]. cbn [snd].
  intros Herr. destruct errors as [|e errors]; [done|]. destruct d; reflexivity.
Qed.

Lemma author_update_post_valid req d old :
  authors d !! params_id req = Some old ->
  (run_all AuthorController.author_update_post_chains (req_body req)).2 = [] ->
  AuthorController.author_update_post req d
  = (set_authors
       (insert (params_id req)
          (Author.new (params_id req)
             (text (get (req_body req) "first_name"))
             (text (get (req_body req) "family_name"))
             (text (get (req_body req) "date_of_birth"))
             (text (get (req_body req) "date_of_death")))) d,
     [Redirect (author_url (Author._id old))]).
Proof.
  intros Hold Herr. pose proof (author_update_values (req_body req)) as Hvals.
  cbn zeta in Hvals. unfold AuthorController.author_update_post.
  revert Herr Hvals.
  destruct (run_all _ (req_body req)) as [b errors]. cbn [fst snd].
  intros -> (-> & -> & -> & ->).
  unfold Author_findByIdAndUpdate. run_handler. rewrite Hold. reflexivity.
Qed.

Lemma author_update_post_invalid req d :
  (run_all AuthorController.author_update_post_chains (req_body req)).2 <> [] ->
  AuthorController.author_update_post req d
  = (d,
     [Render "index"
        [("title", DString "Update Author");
         ("author",
          DAuthor (Some (Author.new (params_id req)
                           (text (get (req_body req) "first_name"))
                           (text (get (req_body req) "family_name"))
                           (text (get (req_body req) "date_of_birth"))
                           (text (get (req_body req) "date_of_death")))));
         ("errors",
          DErrors (run_all AuthorController.author_update_post_chains
                     (req_body req)).2);
         ("route", DString "author_form.ejs")]]).
Proof.
  intros Herr. pose proof (author_update_values (req_body req)) as Hvals.
  cbn zeta in Hvals. unfold AuthorController.author_update_post.
  revert Herr Hvals.
  destruct (run_all _ (req_body req)) as [b errors]. cbn [fst snd].
  intros Herr (-> & -> & -> & ->).
  destruct errors as [|e errors]; [done|]. destruct d; reflexivity.
Qed.

Lemma bookinstance_update_post_valid req d old :
  bookinstances d !! params_id req = Some old ->
  (run_all BookInstanceController.bookinstance_update_post_chains (req_body req)).2 = [] ->
  BookInstanceController.bookinstance_update_post req d
  = (set_bookinstances
       (insert (params_id req)
          (BookInstance.new (params_id req)
             (text (get (req_body req) "book"))
             (text (get (req_body req) "imprint"))
             (text (get (req_body req) "status"))
             (text (get (req_body req) "due_back")))) d,
     [Redirect (bookinstance_url (BookInstance._id old))]).
Proof.
  intros Hold Herr. pose proof (bookinstance_update_values (req_body req)) as Hvals.
  cbn zeta in Hvals. unfold BookInstanceController.bookinstance_update_post.
  revert Herr Hvals.
  destruct (run_all _ (req_body req)) as [b errors]. cbn [fst snd].
  intros -> (-> & -> & -> & ->).
  unfold BookInstance_findByIdAndUpdate. run_handler. rewrite Hold. reflexivity.
Qed.

Lemma bookinstance_update_post_invalid req d :
  (run_all BookInstanceController.bookinstance_update_post_chains (req_body req)).2 <> [] ->
  BookInstanceController.bookinstance_update_post req d
  = (d,
     [Render "index"
        [("title", DString "Update Book Instance");
         ("book_list", DBooks (docs (books d)));
         ("errors",
          DErrors (run_all BookInstanceController.bookinstance_update_post_chains
                     (req_body req)).2);
         ("route", DString "bookinstance_update.ejs")]]).
Proof.
  intros Herr. unfold BookInstanceController.bookinstance_update_post.
  revert Herr. destruct (run_all _ (req_body req)) as [b errors]. cbn [snd].
  intros Herr. destruct errors as [|e errors]; [done|]. destruct d; reflexivity.
Qed.

Lemma author_update_get_unknown req d :
  authors d !! params_id req = None ->
  AuthorController.author_update_get req d
  = (d, [Debug ("id not found on update: " +:+ params_id req);
         Next (Error_ "author not found" (Some 404))]).
Proof.
  intros Hnone. unfold AuthorController.author_update_get, Author_findById.
  run_handler. rewrite Hnone. destruct d; reflexivity.
Qed.

Lemma bookinstance_update_get_unknown req d :
  bookinstances d !! params_id req = None ->
  BookInstanceController.bookinstance_update_get req d
  = (d, [Debug ("id not found on update: " +:+ params_id req);
         Next (Error_ "book instance not found" (Some 404))]).
Proof.
  intros Hnone.
  unfold BookInstanceController.bookinstance_update_get, BookInstance_findById, Book_find.
  run_handler. rewrite Hnone. destruct d; reflexivity.
Qed.
End Routes.

(** C3: a create POST that fails validation persists nothing, but only the
    Author handler renders the form again.  The BookInstance handler never
    renders a view: in its branch for a failed validation the malformed
    argument of [Book.find] throws, and the error goes to [next].
    The create GET handler of the same module builds the same query
    correctly.  Evaluated on a submission whose [imprint] is empty, next to
    an Author submission whose [family_name] is empty. *)
Theorem bookinstance_create_post_never_renders `{Externals} :
  (forall oid req d,
     forallb (fun e => negb (is_render e))
       (BookInstanceController.bookinstance_create_post oid req d).2 = true)
  /\ (forall req d,
       BookInstanceController.bookinstance_create_get req d
       = (d, [Render "index"
                [("title", DString "Create BookInstance");
                 ("book_list",
                  DBookTitles (Model.project_title <$> Model.docs (books d)));
                 ("route", DString "bookinstance_form.ejs")]]))
  /\ BookInstanceController.bookinstance_create_post "n1"
       (mkRequest ""
          {[ "book" := VStr "b1"; "imprint" := VStr ""; "status" := VStr "Available" ]})
       Sample.library
     = (Sample.library, [Next (TypeError "exec")])
  /\ AuthorController.author_create_post "n1"
       (mkRequest "" {[ "first_name" := VStr "Jane"; "family_name" := VStr "" ]})
       Sample.library
     = (Sample.library,
        [Render "index"
           [("title", DString "Create Author");
            ("author",
             DAuthor (Some (Author.new "n1" (VStr "Jane") (VStr "") VUndefined VUndefined)));
            ("errors",
             DErrors
               [express_validator.mkError "family_name"
                  "Family name must be specified." (VStr "");
                express_validator.mkError "family_name"
                  "Family name has non-alphanumeric characters." (VStr "")]);
            ("route", DString "author_form.ejs")]]).
Proof.
  split; [|split; [|split]].
  - intros oid req d.
    destruct (express_validator.run_all
                BookInstanceController.bookinstance_create_post_chains
                (req_body req)).2 as [|e errors] eqn:Herr.
    + by rewrite (bookinstance_create_post_valid _ _ _ Herr).
    + rewrite bookinstance_create_post_invalid; [done|]. by rewrite Herr.
  - intros req d. destruct d; reflexivity.
  - rewrite bookinstance_create_post_invalid; [done|]. vm_compute. discriminate.
  - rewrite author_create_post_invalid; [|vm_compute; discriminate].
    vm_compute. reflexivity.
Qed.

(** C4: a create POST whose fields all pass validation persists one new
    document, made of the sanitized values of the submission -- required
    text trimmed and escaped, [status] escaped, an optional date coerced to
    a [Date] -- and redirects to the canonical detail path of that
    document.  An optional date field that is falsy (absent or empty)
    passes validation and reaches the document as it is, with no date: an
    Author created from [first_name] and [family_name] alone has
    [date_of_birth] and [date_of_death] undefined. *)
Theorem create_post_valid_persists `{Externals}
    (oid : string) (req : request) (d : database) :
  let b := req_body req in
  ((express_validator.run_all AuthorController.author_create_post_chains b).2 = [] ->
   AuthorController.author_create_post oid req d
   = (Model.set_authors
        (insert oid
           (Author.new oid
              (express_validator.text (express_validator.get b "first_name"))
              (express_validator.text (express_validator.get b "family_name"))
              (express_validator.date (express_validator.get b "date_of_birth"))
              (express_validator.date (express_validator.get b "date_of_death")))) d,
      [Redirect (author_url oid)]))
  /\ ((express_validator.run_all
         BookInstanceController.bookinstance_create_post_chains b).2 = [] ->
      BookInstanceController.bookinstance_create_post oid req d
      = (Model.set_bookinstances
           (insert oid
              (BookInstance.new oid
                 (express_validator.text (express_validator.get b "book"))
                 (express_validator.text (express_validator.get b "imprint"))
                 (VStr (validator.escape
                          (express_validator.toString (express_validator.get b "status"))))
                 (express_validator.date (express_validator.get b "due_back")))) d,
         [Redirect (bookinstance_url oid)]))
  /\ (forall f m v,
        truthy v = false ->
        express_validator.run_field
          (express_validator.body f m |> express_validator.optional
             |> express_validator.isISO8601_ |> express_validator.toDate) v
        = (v, [])
        /\ express_validator.date v = v
        /\ (v = VUndefined \/ v = VNull \/ v = VStr ""))
  /\ AuthorController.author_create_post oid
       (mkRequest (params_id req)
          {[ "first_name" := VStr "Jane"; "family_name" := VStr "Austen" ]}) d
     = (Model.set_authors
          (insert oid
             (Author.new oid (VStr "Jane") (VStr "Austen") VUndefined VUndefined)) d,
        [Redirect (author_url oid)]).
Proof.
  intros b. split; [|split; [|split]].
  - apply author_create_post_valid.
  - apply bookinstance_create_post_valid.
  - intros f m v Hfalsy. rewrite run_field_date.
    unfold express_validator.date, express_validator.date_ok.
    rewrite Hfalsy. split; [done|]. split; [done|].
    destruct v as [| |[|a s]|t]; try discriminate Hfalsy; auto.
  - rewrite author_create_post_valid; [|by vm_compute]. reflexivity.
Qed.

Lemma create_post_valid_persists_witness :
  ((@express_validator.run_all Sample.externals
      AuthorController.author_create_post_chains Sample.jane_form).2 = []
   /\ (@express_validator.run_all Sample.externals
         BookInstanceController.bookinstance_create_post_chains
         Sample.copy_form_no_date).2 = []
   /\ truthy (VStr "") = false)
  /\ @AuthorController.author_create_post Sample.externals "n1"
       (mkRequest "" Sample.jane_form) Sample.no_books
     = (Model.set_authors
          (insert "n1" (Author.new "n1" (VStr "Jane") (VStr "Austen") (VDate 10) VUndefined))
          Sample.no_books,
        [Redirect "/catalog/author/n1"])
  /\ @BookInstanceController.bookinstance_create_post Sample.externals "n2"
       (mkRequest "" Sample.copy_form_no_date) Sample.library
     = (Model.set_bookinstances
          (insert "n2"
             (BookInstance.new "n2" (VStr "b1") (VStr "Penguin") (VStr "Available")
                (VStr "")))
          Sample.library,
        [Redirect "/catalog/bookinstance/n2"])
  /\ @express_validator.run_field Sample.externals
       (express_validator.body "due_back" (Some "Invalid date")
          |> express_validator.optional |> express_validator.isISO8601_
          |> express_validator.toDate) (VStr "")
     = (VStr "", []).
Proof.
  assert (Hauthor_ok : (@express_validator.run_all Sample.externals
            AuthorController.author_create_post_chains Sample.jane_form).2 = [])
    by reflexivity.
  assert (Hcopy_ok : (@express_validator.run_all Sample.externals
            BookInstanceController.bookinstance_create_post_chains
            Sample.copy_form_no_date).2 = [])
    by reflexivity.
  assert (Hfalsy : truthy (VStr "") = false) by reflexivity.
  split; [by repeat split|].
  destruct (@create_post_valid_persists Sample.externals "n1"
              (mkRequest "" Sample.jane_form) Sample.no_books)
    as (Hauthor & _ & Hdate & _).
  destruct (@create_post_valid_persists Sample.externals "n2"
              (mkRequest "" Sample.copy_form_no_date) Sample.library)
    as (_ & Hcopy & _).
  split; [rewrite (Hauthor Hauthor_ok); reflexivity|].
  split; [rewrite (Hcopy Hcopy_ok); reflexivity|].
  exact (proj1 (Hdate "due_back" (Some "Invalid date") (VStr "") Hfalsy)).
Defined.

(** C5: a valid update POST against a stored entity writes the document
    under the path identifier: afterwards that identifier holds a document
    whose [_id] is the path identifier and whose fields are the sanitized
    values of the submission, and the collection has the same identifiers
    as before.  Author and BookInstance alike. *)
Theorem update_post_keeps_identifier `{Externals} (req : request) (d : database) :
  let b := req_body req in
  (forall old,
     authors d !! params_id req = Some old ->
     (express_validator.run_all AuthorController.author_update_post_chains b).2 = [] ->
     let doc :=
       Author.new (params_id req)
         (express_validator.text (express_validator.get b "first_name"))
         (express_validator.text (express_validator.get b "family_name"))
         (express_validator.text (express_validator.get b "date_of_birth"))
         (express_validator.text (express_validator.get b "date_of_death")) in
     let after := (AuthorController.author_update_post req d).1 in
     authors after = <[params_id req := doc]> (authors d)
     /\ authors after !! params_id req = Some doc
     /\ Author._id doc = params_id req
     /\ dom (authors after) = dom (authors d))
  /\ (forall old,
        bookinstances d !! params_id req = Some old ->
        (express_validator.run_all
           BookInstanceController.bookinstance_update_post_chains b).2 = [] ->
        let doc :=
          BookInstance.new (params_id req)
            (express_validator.text (express_validator.get b "book"))
            (express_validator.text (express_validator.get b "imprint"))
            (express_validator.text (express_validator.get b "status"))
            (express_validator.text (express_validator.get b "due_back")) in
        let after := (BookInstanceController.bookinstance_update_post req d).1 in
        bookinstances after = <[params_id req := doc]> (bookinstances d)
        /\ bookinstances after !! params_id req = Some doc
        /\ BookInstance._id doc = params_id req
        /\ dom (bookinstances after) = dom (bookinstances d)).
Proof.
  intros b. split.
  - intros old Hold Hvalid doc after. unfold after.
    rewrite (author_update_post_valid _ _ _ Hold Hvalid). simpl.
    split; [reflexivity|]. split; [apply lookup_insert_eq|]. split; [reflexivity|].
    apply dom_insert_lookup_L. by exists old.
  - intros old Hold Hvalid doc after. unfold after.
    rewrite (bookinstance_update_post_valid _ _ _ Hold Hvalid). simpl.
    split; [reflexivity|]. split; [apply lookup_insert_eq|]. split; [reflexivity|].
    apply dom_insert_lookup_L. by exists old.
Qed.

(** C6, as amended: the update chains repeat the create chains on the
    required text fields only.  For [book] and [imprint] of a BookInstance
    the update chain accepts exactly what the create chain accepts and
    leaves the same value; for [first_name] and [family_name] of an Author
    it leaves the same value and accepts whatever create accepts (it has
    no alphanumeric check), so an Author submission that create accepts is
    accepted by update.  The other fields are treated differently: a
    BookInstance submission that create accepts is accepted by update
    exactly when [due_back] and [status] are not blank. *)
Theorem update_chains_against_create_chains `{Externals} (b : gmap string value) :
  let ac := express_validator.run_all AuthorController.author_create_post_chains b in
  let au := express_validator.run_all AuthorController.author_update_post_chains b in
  let ic :=
    express_validator.run_all BookInstanceController.bookinstance_create_post_chains b in
  let iu :=
    express_validator.run_all BookInstanceController.bookinstance_update_post_chains b in
  (express_validator.get au.1 "first_name" = express_validator.get ac.1 "first_name"
   /\ express_validator.get au.1 "family_name" = express_validator.get ac.1 "family_name")
  /\ (ac.2 = [] -> au.2 = [])
  /\ (express_validator.get iu.1 "book" = express_validator.get ic.1 "book"
      /\ express_validator.get iu.1 "imprint" = express_validator.get ic.1 "imprint")
  /\ (forall f c u v,
        f = "book" \/ f = "imprint" ->
        express_validator.chain_for f
          BookInstanceController.bookinstance_create_post_chains = Some c ->
        express_validator.chain_for f
          BookInstanceController.bookinstance_update_post_chains = Some u ->
        (express_validator.run_field u v).1 = (express_validator.run_field c v).1
        /\ ((express_validator.run_field u v).2 = []
            <-> (express_validator.run_field c v).2 = []))
  /\ (ic.2 = [] ->
      (iu.2 = []
       <-> express_validator.nonblank (express_validator.get b "due_back") = true
           /\ express_validator.nonblank (express_validator.get b "status") = true)).
Proof.
  intros ac au ic iu.
  destruct (author_create_values b) as (Hc1 & Hc2 & _).
  destruct (author_update_values b) as (Hu1 & Hu2 & _).
  destruct (bookinstance_create_values b) as (Hi1 & Hi2 & _).
  destruct (bookinstance_update_values b) as (Hj1 & Hj2 & _).
  split; [|split; [|split; [|split]]].
  - unfold au, ac. by rewrite Hc1, Hc2, Hu1, Hu2.
  - unfold au, ac. rewrite author_create_accepts, author_update_accepts.
    intros Hall. repeat (apply andb_prop in Hall as [Hall ?]).
    apply andb_true_intro. by split.
  - unfold iu, ic. by rewrite Hi1, Hi2, Hj1, Hj2.
  - intros f c u v [-> | ->] Hc Hu; simpl in Hc, Hu;
      injection Hc as <-; injection Hu as <-;
      rewrite !run_field_required; simpl;
      by destruct (express_validator.nonblank v).
  - unfold iu, ic. rewrite bookinstance_create_accepts, bookinstance_update_accepts.
    intros Hall. repeat (apply andb_prop in Hall as [Hall ?]).
    rewrite Hall. split.
    + intros Hup. repeat (apply andb_prop in Hup as [Hup ?]). by split.
    + intros [Hdue Hstatus]. rewrite Hdue, Hstatus.
      repeat (apply andb_true_intro; split); done.
Qed.

Lemma update_post_keeps_identifier_witness :
  (authors Sample.library !! "a1" = Some Sample.austen
   /\ (@express_validator.run_all Sample.externals
         AuthorController.author_update_post_chains Sample.jane_form).2 = []
   /\ bookinstances Sample.library !! "i1" = Some Sample.copy1
   /\ (@express_validator.run_all Sample.externals
         BookInstanceController.bookinstance_update_post_chains Sample.copy_form).2 = [])
  /\ authors
       (@AuthorController.author_update_post Sample.externals
          (mkRequest "a1" Sample.jane_form) Sample.library).1 !! "a1"
     = Some (Author.new "a1" (VStr "Jane") (VStr "Austen") (VStr "1775-12-16") (VStr ""))
  /\ bookinstances
       (@BookInstanceController.bookinstance_update_post Sample.externals
          (mkRequest "i1" Sample.copy_form) Sample.library).1 !! "i1"
     = Some (BookInstance.new "i1" (VStr "b1") (VStr "Penguin") (VStr "Available")
               (VStr "2024-05-01")).
Proof.
  assert (Ha : authors Sample.library !! "a1" = Some Sample.austen) by reflexivity.
  assert (Hva : (@express_validator.run_all Sample.externals
            AuthorController.author_update_post_chains Sample.jane_form).2 = [])
    by reflexivity.
  assert (Hi : bookinstances Sample.library !! "i1" = Some Sample.copy1) by reflexivity.
  assert (Hvi : (@express_validator.run_all Sample.externals
            BookInstanceController.bookinstance_update_post_chains Sample.copy_form).2 = [])
    by reflexivity.
  split; [by repeat split|]. split.
  - destruct (@update_post_keeps_identifier Sample.externals
                (mkRequest "a1" Sample.jane_form) Sample.library) as (Hauthor & _).
    destruct (Hauthor Sample.austen Ha Hva) as (_ & Hdoc & _). exact Hdoc.
  - destruct (@update_post_keeps_identifier Sample.externals
                (mkRequest "i1" Sample.copy_form) Sample.library) as (_ & Hinst).
    destruct (Hinst Sample.copy1 Hi Hvi) as (_ & Hdoc & _). exact Hdoc.
Defined.

Lemma update_chains_against_create_chains_witness :
  ((@express_validator.run_all Sample.externals
      AuthorController.author_create_post_chains Sample.jane_form).2 = []
   /\ (@express_validator.run_all Sample.externals
         BookInstanceController.bookinstance_create_post_chains Sample.copy_form).2 = []
   /\ @express_validator.nonblank Sample.externals
        (express_validator.get Sample.copy_form "due_back") = true
   /\ @express_validator.nonblank Sample.externals
        (express_validator.get Sample.copy_form "status") = true)
  /\ (@express_validator.run_all Sample.externals
        AuthorController.author_update_post_chains Sample.jane_form).2 = []
  /\ (@express_validator.run_all Sample.externals
        BookInstanceController.bookinstance_update_post_chains Sample.copy_form).2 = [].
Proof.
  assert (Hac : (@express_validator.run_all Sample.externals
            AuthorController.author_create_post_chains Sample.jane_form).2 = [])
    by reflexivity.
  assert (Hic : (@express_validator.run_all Sample.externals
            BookInstanceController.bookinstance_create_post_chains Sample.copy_form).2 = [])
    by reflexivity.
  assert (Hdue : @express_validator.nonblank Sample.externals
            (express_validator.get Sample.copy_form "due_back") = true) by reflexivity.
  assert (Hstatus : @express_validator.nonblank Sample.externals
            (express_validator.get Sample.copy_form "status") = true) by reflexivity.
  split; [by repeat split|]. split.
  - destruct (@update_chains_against_create_chains Sample.externals Sample.jane_form)
      as (_ & Hauthor & _).
    exact (Hauthor Hac).
  - destruct (@update_chains_against_create_chains Sample.externals Sample.copy_form)
      as (_ & _ & _ & _ & Hinst).
    apply (Hinst Hic). by split.
Defined.

(** C6 as stated fails.  A BookInstance form whose [due_back] is empty is
    accepted by the create chains and rejected by the update chains, and a
    date of birth that create turns into a [Date] is left a string by
    update. *)
Lemma update_chains_differ_from_create_chains :
  (@express_validator.run_all Sample.externals
     BookInstanceController.bookinstance_create_post_chains Sample.copy_form_no_date).2 = []
  /\ (@express_validator.run_all Sample.externals
        BookInstanceController.bookinstance_update_post_chains Sample.copy_form_no_date).2
     = [express_validator.mkError "due_back" "Date must not be empty." (VStr "")]
  /\ express_validator.get
       (@express_validator.run_all Sample.externals
          AuthorController.author_create_post_chains Sample.jane_form).1 "date_of_birth"
     = VDate 10
  /\ express_validator.get
       (@express_validator.run_all Sample.externals
          AuthorController.author_update_post_chains Sample.jane_form).1 "date_of_birth"
     = VStr "1775-12-16".
Proof. vm_compute. by repeat split. Qed.

(** C8, as amended: an update GET whose path identifier resolves to nothing
    hands an error with status 404 to [next] and renders no view, for
    Author and BookInstance.  An update POST does not look the identifier
    up before it validates: a submission that fails validation gets the
    form rendered again with its errors, whether or not the identifier
    resolves, and the store is left as it was. *)
Theorem update_unknown_id `{Externals} (req : request) (d : database) :
  (authors d !! params_id req = None ->
   AuthorController.author_update_get req d
   = (d, [Debug ("id not found on update: " +:+ params_id req);
          Next (Error_ "author not found" (Some 404))]))
  /\ (bookinstances d !! params_id req = None ->
      BookInstanceController.bookinstance_update_get req d
      = (d, [Debug ("id not found on update: " +:+ params_id req);
             Next (Error_ "book instance not found" (Some 404))]))
  /\ ((express_validator.run_all AuthorController.author_update_post_chains
         (req_body req)).2 <> [] ->
      AuthorController.author_update_post req d
      = (d,
         [Render "index"
            [("title", DString "Update Author");
             ("author",
              DAuthor
                (Some (Author.new (params_id req)
                         (express_validator.text
                            (express_validator.get (req_body req) "first_name"))
                         (express_validator.text
                            (express_validator.get (req_body req) "family_name"))
                         (express_validator.text
                            (express_validator.get (req_body req) "date_of_birth"))
                         (express_validator.text
                            (express_validator.get (req_body req) "date_of_death")))));
             ("errors",
              DErrors (express_validator.run_all
                         AuthorController.author_update_post_chains (req_body req)).2);
             ("route", DString "author_form.ejs")]]))
  /\ ((express_validator.run_all BookInstanceController.bookinstance_update_post_chains
         (req_body req)).2 <> [] ->
      BookInstanceController.bookinstance_update_post req d
      = (d,
         [Render "index"
            [("title", DString "Update Book Instance");
             ("book_list", DBooks (Model.docs (books d)));
             ("errors",
              DErrors (express_validator.run_all
                         BookInstanceController.bookinstance_update_post_chains
                         (req_body req)).2);
             ("route", DString "bookinstance_update.ejs")]])).
Proof.
  split; [apply author_update_get_unknown|].
  split; [apply bookinstance_update_get_unknown|].
  split; [apply author_update_post_invalid | apply bookinstance_update_post_invalid].
Qed.

Lemma update_unknown_id_witness :
  (authors Sample.library !! "zz" = None
   /\ bookinstances Sample.library !! "zz" = None
   /\ (@express_validator.run_all Sample.externals
         AuthorController.author_update_post_chains Sample.nameless_form).2 <> []
   /\ (@express_validator.run_all Sample.externals
         BookInstanceController.bookinstance_update_post_chains
         Sample.copy_form_no_date).2 <> [])
  /\ (AuthorController.author_update_get (mkRequest "zz" ∅) Sample.library).2
     = [Debug "id not found on update: zz"; Next (Error_ "author not found" (Some 404))]
  /\ (BookInstanceController.bookinstance_update_get (mkRequest "zz" ∅) Sample.library).2
     = [Debug "id not found on update: zz";
        Next (Error_ "book instance not found" (Some 404))]
  /\ (exists locals,
        @AuthorController.author_update_post Sample.externals
          (mkRequest "zz" Sample.nameless_form) Sample.library
        = (Sample.library, [Render "index" locals]))
  /\ (exists locals,
        @BookInstanceController.bookinstance_update_post Sample.externals
          (mkRequest "zz" Sample.copy_form_no_date) Sample.library
        = (Sample.library, [Render "index" locals])).
Proof.
  assert (Ha : authors Sample.library !! "zz" = None) by reflexivity.
  assert (Hi : bookinstances Sample.library !! "zz" = None) by reflexivity.
  assert (Hbad_a : (@express_validator.run_all Sample.externals
            AuthorController.author_update_post_chains Sample.nameless_form).2 <> [])
    by (vm_compute; discriminate).
  assert (Hbad_i : (@express_validator.run_all Sample.externals
            BookInstanceController.bookinstance_update_post_chains
            Sample.copy_form_no_date).2 <> [])
    by (vm_compute; discriminate).
  split; [by repeat split|].
  destruct (@update_unknown_id Sample.externals (mkRequest "zz" ∅) Sample.library)
    as (Hauthor & Hinst & _).
  destruct (@update_unknown_id Sample.externals
              (mkRequest "zz" Sample.nameless_form) Sample.library)
    as (_ & _ & Hpost_a & _).
  destruct (@update_unknown_id Sample.externals
              (mkRequest "zz" Sample.copy_form_no_date) Sample.library)
    as (_ & _ & _ & Hpost_i).
  rewrite (Hauthor Ha), (Hinst Hi).
  split; [reflexivity|]. split; [reflexivity|]. split.
  - eexists. exact (Hpost_a Hbad_a).
  - eexists. exact (Hpost_i Hbad_i).
Defined.

(** C8 as stated fails on POST.  The identifier below resolves to no
    author, the submission has an empty [first_name], and the handler
    renders the form with the error: no error reaches [next]. *)
Lemma update_post_unknown_id_renders_form :
  authors Sample.library !! "zz" = None
  /\ @AuthorController.author_update_post Sample.externals
       (mkRequest "zz" Sample.nameless_form) Sample.library
     = (Sample.library,
        [Render "index"
           [("title", DString "Update Author");
            ("author",
             DAuthor (Some (Author.new "zz" (VStr "") (VStr "Austen") (VStr "") (VStr ""))));
            ("errors",
             DErrors [express_validator.mkError "first_name"
                        "First Name must not be empty." (VStr "")]);
            ("route", DString "author_form.ejs")]]).
Proof. split; [reflexivity|]. vm_compute. reflexivity. Qed.

(** * Further properties of the handlers *)

Section FoundEntities.
Import Model.
Context `{Externals}.

Lemma author_detail_found req d a :
  authors d !! params_id req = Some a ->
  AuthorController.author_detail req d
  = (d, [Render "index"
           [("title", DString "Author Detail");
            ("author", DAuthor (Some a));
            ("author_books", DBookSummaries (books_by_author d (params_id req)));
            ("route", DString "author_detail.ejs")]]).
Proof.
  intros Hsome. unfold AuthorController.author_detail, Author_findById, Book_find_author.
  run_handler. rewrite Hsome. destruct d; reflexivity.
Qed.

Lemma author_delete_get_found req d a :
  authors d !! params_id req = Some a ->
  AuthorController.author_delete_get req d
  = (d, [Render "index"
           [("title", DString "Delete Author");
            ("author", DAuthor (Some a));
            ("author_books", DBookSummaries (books_by_author d (params_id req)));
            ("route", DString "author_delete.ejs")]]).
Proof.
  intros Hsome.
  unfold AuthorController.author_delete_get, Author_findById, Book_find_author.
  run_handler. rewrite Hsome. destruct d; reflexivity.
Qed.

Lemma author_update_get_found req d a :
  authors d !! params_id req = Some a ->
  AuthorController.author_update_get req d
  = (d, [Render "index"
           [("title", DString "Update Author");
            ("author", DAuthor (Some a));
            ("route", DString "author_form.ejs")]]).
Proof.
  intros Hsome. unfold AuthorController.author_update_get, Author_findById.
  run_handler. rewrite Hsome. destruct d; reflexivity.
Qed.

Lemma book_detail_found req d b :
  books d !! params_id req = Some b ->
  BookController.book_detail req d
  = (d, [Render "index"
           [("title", DString (Book.title b));
            ("book", DBook (populate_book d b));
            ("book_instances",
             DBookInstances
               (List.filter
                  (fun i => bool_decide (BookInstance.book i = VStr (params_id req)))
                  (docs (bookinstances d))));
            ("route", DString "book_detail.ejs")]]).
Proof.
  intros Hsome.
  unfold BookController.book_detail, Book_findById_populate, BookInstance_find_book.
  run_handler. rewrite Hsome. destruct d; reflexivity.
Qed.

Lemma bookinstance_delete_get_found req d i :
  bookinstances d !! params_id req = Some i ->
  BookInstanceController.bookinstance_delete_get req d
  = (d, [Render "index"
           [("title", DString "Delete Book Instance");
            ("book_instance", DPopulatedInstance (Some (populate_instance d i)));
            ("route", DString "bookinstance_delete.ejs")]]).
Proof.
  intros Hsome.
  unfold BookInstanceController.bookinstance_delete_get, BookInstance_findById_populate.
  run_handler. rewrite Hsome. destruct d; reflexivity.
Qed.

Lemma bookinstance_update_get_found req d i :
  bookinstances d !! params_id req = Some i ->
  BookInstanceController.bookinstance_update_get req d
  = (d, [Render "index"
           [("title", DString "Update Book Instance");
            ("bookinstance", DBookInstance i);
            ("book_list", DBooks (docs (books d)));
            ("route", DString "bookinstance_form.ejs")]]).
Proof.
  intros Hsome.
  unfold BookInstanceController.bookinstance_update_get, BookInstance_findById, Book_find.
  run_handler. rewrite Hsome. destruct d; reflexivity.
Qed.

Lemma author_update_post_unknown req d :
  authors d !! params_id req = None ->
  (express_validator.run_all AuthorController.author_update_post_chains
     (req_body req)).2 = [] ->
  AuthorController.author_update_post req d = (d, [Next (TypeError "url")]).
Proof.
  intros Hnone Herr. unfold AuthorController.author_update_post.
  revert Herr. destruct (express_validator.run_all _ (req_body req)) as [b errors].
  cbn [snd]. intros ->.
  unfold Author_findByIdAndUpdate. run_handler. rewrite Hnone. destruct d; reflexivity.
Qed.

Lemma bookinstance_update_post_unknown req d :
  bookinstances d !! params_id req = None ->
  (express_validator.run_all BookInstanceController.bookinstance_update_post_chains
     (req_body req)).2 = [] ->
  BookInstanceController.bookinstance_update_post req d = (d, [Next (TypeError "url")]).
Proof.
  intros Hnone Herr. unfold BookInstanceController.bookinstance_update_post.
  revert Herr. destruct (express_validator.run_all _ (req_body req)) as [b errors].
  cbn [snd]. intros ->.
  unfold BookInstance_findByIdAndUpdate. run_handler. rewrite Hnone.
  destruct d; reflexivity.
Qed.

End FoundEntities.

(** X1: the handlers of the GET routes never write: whatever the request,
    the store after is the store before. *)
Theorem get_handlers_keep_store `{Externals} (req : request) (d : database) :
  (AuthorController.author_detail req d).1 = d
  /\ (AuthorController.author_delete_get req d).1 = d
  /\ (AuthorController.author_update_get req d).1 = d
  /\ (Listing.author_create_get req d).1 = d
  /\ (BookController.book_detail req d).1 = d
  /\ (BookInstanceController.bookinstance_list req d).1 = d
  /\ (BookInstanceController.bookinstance_detail req d).1 = d
  /\ (BookInstanceController.bookinstance_create_get req d).1 = d
  /\ (BookInstanceController.bookinstance_delete_get req d).1 = d
  /\ (BookInstanceController.bookinstance_update_get req d).1 = d.
Proof.
  destruct (authors d !! params_id req) as [a|] eqn:Ha;
    destruct (books d !! params_id req) as [b|] eqn:Hb;
    destruct (bookinstances d !! params_id req) as [i|] eqn:Hi;
    repeat match goal with
           | |- _ /\ _ => split
           end;
    first [ by rewrite (author_detail_found _ _ _ Ha)
          | by rewrite (author_detail_unknown _ _ Ha)
          | by rewrite (author_delete_get_found _ _ _ Ha)
          | by rewrite (author_delete_get_unknown _ _ Ha)
          | by rewrite (author_update_get_found _ _ _ Ha)
          | by rewrite (author_update_get_unknown _ _ Ha)
          | by rewrite (book_detail_found _ _ _ Hb)
          | by rewrite (book_detail_unknown _ _ Hb)
          | by rewrite (bookinstance_detail_found _ _ _ Hi)
          | by rewrite (bookinstance_detail_unknown _ _ Hi)
          | by rewrite (bookinstance_delete_get_found _ _ _ Hi)
          | by rewrite (bookinstance_delete_get_unknown _ _ Hi)
          | by rewrite (bookinstance_update_get_found _ _ _ Hi)
          | by rewrite (bookinstance_update_get_unknown _ _ Hi)
          | by destruct d ].
Qed.

(** X2: every handler answers a request with exactly one call among
    [res.render], [res.redirect] and [next] -- except the two delete GET
    handlers, which make two when the identifier resolves to nothing. *)
Theorem handlers_answer_once `{Externals} (oid : string) (req : request) (d : database) :
  Facts.responses (AuthorController.author_detail req d) = 1
  /\ Facts.responses (AuthorController.author_create_post oid req d) = 1
  /\ Facts.responses (AuthorController.author_delete_post req d) = 1
  /\ Facts.responses (AuthorController.author_update_get req d) = 1
  /\ Facts.responses (AuthorController.author_update_post req d) = 1
  /\ Facts.responses (BookController.book_detail req d) = 1
  /\ Facts.responses (BookInstanceController.bookinstance_detail req d) = 1
  /\ Facts.responses (BookInstanceController.bookinstance_create_post oid req d) = 1
  /\ Facts.responses (BookInstanceController.bookinstance_delete_post req d) = 1
  /\ Facts.responses (BookInstanceController.bookinstance_update_get req d) = 1
  /\ Facts.responses (BookInstanceController.bookinstance_update_post req d) = 1
  /\ Facts.responses (AuthorController.author_delete_get req d)
     = match authors d !! params_id req with Some _ => 1 | None => 2 end
  /\ Facts.responses (BookInstanceController.bookinstance_delete_get req d)
     = match bookinstances d !! params_id req with Some _ => 1 | None => 2 end.
Proof.
  unfold Facts.responses.
  destruct (authors d !! params_id req) as [a|] eqn:Ha;
    destruct (bookinstances d !! params_id req) as [i|] eqn:Hi.
  all: split;
    [first [ by rewrite (author_detail_found _ _ _ Ha)
           | by rewrite (author_detail_unknown _ _ Ha) ]|].
  all: split;
    [destruct (express_validator.run_all AuthorController.author_create_post_chains
                 (req_body req)).2 as [|e l] eqn:He;
     first [ by rewrite (author_create_post_valid _ _ _ He)
           | by rewrite author_create_post_invalid by (by rewrite He) ]|].
  all: split;
    [destruct (Model.books_by_author d (params_id req)) as [|s l] eqn:Hdep;
     first [ by rewrite (author_delete_post_removes _ _ Hdep)
           | by rewrite author_delete_post_blocked by (by rewrite Hdep) ]|].
  all: split;
    [first [ by rewrite (author_update_get_found _ _ _ Ha)
           | by rewrite (author_update_get_unknown _ _ Ha) ]|].
  all: split;
    [destruct (express_validator.run_all AuthorController.author_update_post_chains
                 (req_body req)).2 as [|e l] eqn:He;
     first [ by rewrite (author_update_post_valid _ _ _ Ha He)
           | by rewrite (author_update_post_unknown _ _ Ha He)
           | by rewrite author_update_post_invalid by (by rewrite He) ]|].
  all: split;
    [destruct (books d !! params_id req) as [b|] eqn:Hb;
     first [ by rewrite (book_detail_found _ _ _ Hb)
           | by rewrite (book_detail_unknown _ _ Hb) ]|].
  all: split;
    [first [ by rewrite (bookinstance_detail_found _ _ _ Hi)
           | by rewrite (bookinstance_detail_unknown _ _ Hi) ]|].
  all: split;
    [destruct (express_validator.run_all
                 BookInstanceController.bookinstance_create_post_chains
                 (req_body req)).2 as [|e l] eqn:He;
     first [ by rewrite (bookinstance_create_post_valid _ _ _ He)
           | by rewrite bookinstance_create_post_invalid by (by rewrite He) ]|].
  all: split;
    [first [ by rewrite (bookinstance_delete_post_found _ _ _ Hi)
           | by rewrite (bookinstance_delete_post_unknown _ _ Hi) ]|].
  all: split;
    [first [ by rewrite (bookinstance_update_get_found _ _ _ Hi)
           | by rewrite (bookinstance_update_get_unknown _ _ Hi) ]|].
  all: split;
    [destruct (express_validator.run_all
                 BookInstanceController.bookinstance_update_post_chains
                 (req_body req)).2 as [|e l] eqn:He;
     first [ by rewrite (bookinstance_update_post_valid _ _ _ Hi He)
           | by rewrite (bookinstance_update_post_unknown _ _ Hi He)
           | by rewrite bookinstance_update_post_invalid by (by rewrite He) ]|].
  all: split;
    first [ by rewrite (author_delete_get_found _ _ _ Ha)
          | by rewrite (author_delete_get_unknown _ _ Ha)
          | by rewrite (bookinstance_delete_get_found _ _ _ Hi)
          | by rewrite (bookinstance_delete_get_unknown _ _ Hi) ].
Qed.

(** X3: a submission that fails validation is never written: in the four
    POST handlers that validate, the store after is the store before. *)
Theorem invalid_submission_writes_nothing `{Externals}
    (oid : string) (req : request) (d : database) :
  ((express_validator.run_all AuthorController.author_create_post_chains
      (req_body req)).2 <> [] ->
   (AuthorController.author_create_post oid req d).1 = d)
  /\ ((express_validator.run_all AuthorController.author_update_post_chains
         (req_body req)).2 <> [] ->
      (AuthorController.author_update_post req d).1 = d)
  /\ ((express_validator.run_all BookInstanceController.bookinstance_create_post_chains
         (req_body req)).2 <> [] ->
      (BookInstanceController.bookinstance_create_post oid req d).1 = d)
  /\ ((express_validator.run_all BookInstanceController.bookinstance_update_post_chains
         (req_body req)).2 <> [] ->
      (BookInstanceController.bookinstance_update_post req d).1 = d).
Proof.
  split; [|split; [|split]]; intros Herr.
  - by rewrite (author_create_post_invalid _ _ _ Herr).
  - by rewrite (author_update_post_invalid _ _ Herr).
  - by rewrite (bookinstance_create_post_invalid _ _ _ Herr).
  - by rewrite (bookinstance_update_post_invalid _ _ Herr).
Qed.

Lemma invalid_submission_writes_nothing_witness :
  ((@express_validator.run_all Sample.externals
      AuthorController.author_create_post_chains Sample.nameless_form).2 <> []
   /\ (@express_validator.run_all Sample.externals
         AuthorController.author_update_post_chains Sample.nameless_form).2 <> []
   /\ (@express_validator.run_all Sample.externals
         BookInstanceController.bookinstance_create_post_chains Sample.nameless_form).2 <> []
   /\ (@express_validator.run_all Sample.externals
         BookInstanceController.bookinstance_update_post_chains Sample.nameless_form).2 <> [])
  /\ (@AuthorController.author_create_post Sample.externals "n1"
        (mkRequest "a1" Sample.nameless_form) Sample.library).1 = Sample.library
  /\ (@AuthorController.author_update_post Sample.externals
        (mkRequest "a1" Sample.nameless_form) Sample.library).1 = Sample.library
  /\ (@BookInstanceController.bookinstance_create_post Sample.externals "n1"
        (mkRequest "a1" Sample.nameless_form) Sample.library).1 = Sample.library
  /\ (@BookInstanceController.bookinstance_update_post Sample.externals
        (mkRequest "a1" Sample.nameless_form) Sample.library).1 = Sample.library.
Proof.
  assert (H1 : (@express_validator.run_all Sample.externals
      AuthorController.author_create_post_chains Sample.nameless_form).2 <> [])
    by (vm_compute; discriminate).
  assert (H2 : (@express_validator.run_all Sample.externals
      AuthorController.author_update_post_chains Sample.nameless_form).2 <> [])
    by (vm_compute; discriminate).
  assert (H3 : (@express_validator.run_all Sample.externals
      BookInstanceController.bookinstance_create_post_chains Sample.nameless_form).2 <> [])
    by (vm_compute; discriminate).
  assert (H4 : (@express_validator.run_all Sample.externals
      BookInstanceController.bookinstance_update_post_chains Sample.nameless_form).2 <> [])
    by (vm_compute; discriminate).
  split; [by repeat split|].
  destruct (@invalid_submission_writes_nothing Sample.externals "n1"
              (mkRequest "a1" Sample.nameless_form) Sample.library)
    as (Ha & Hb & Hc & Hd).
  split; [exact (Ha H1)|]. split; [exact (Hb H2)|]. split; [exact (Hc H3)|].
  exact (Hd H4).
Defined.

(** X4: after a valid create, the detail handler finds the new document
    under the identifier it was given: the Author detail renders the
    created author (with the books that reference that identifier), the
    BookInstance detail renders the created copy, and neither answers 404. *)
Theorem create_then_detail `{Externals}
    (oid : string) (req req' : request) (d : database) :
  params_id req' = oid ->
  ((express_validator.run_all AuthorController.author_create_post_chains
      (req_body req)).2 = [] ->
   let after := (AuthorController.author_create_post oid req d).1 in
   exists doc,
     authors after !! oid = Some doc
     /\ Author._id doc = oid
     /\ AuthorController.author_detail req' after
        = (after,
           [Render "index"
              [("title", DString "Author Detail");
               ("author", DAuthor (Some doc));
               ("author_books", DBookSummaries (Model.books_by_author d oid));
               ("route", DString "author_detail.ejs")]]))
  /\ ((express_validator.run_all BookInstanceController.bookinstance_create_post_chains
         (req_body req)).2 = [] ->
      let after := (BookInstanceController.bookinstance_create_post oid req d).1 in
      exists doc,
        bookinstances after !! oid = Some doc
        /\ BookInstance._id doc = oid
        /\ BookInstanceController.bookinstance_detail req' after
           = (after,
              [Render "index"
                 [("title", DString "Book:");
                  ("bookinstance",
                   DPopulatedInstance (Some (Model.populate_instance d doc)));
                  ("route", DString "bookinstance_detail.ejs")]])).
Proof.
  intros Hid. split.
  - intros Hvalid after. unfold after.
    rewrite (author_create_post_valid _ _ _ Hvalid). cbn [fst].
    eexists. split; [apply lookup_insert_eq|]. split; [reflexivity|].
    erewrite (author_detail_found req');
      [|rewrite Hid; cbn [authors Model.set_authors]; apply lookup_insert_eq].
    rewrite Hid. reflexivity.
  - intros Hvalid after. unfold after.
    rewrite (bookinstance_create_post_valid _ _ _ Hvalid). cbn [fst].
    eexists. split; [apply lookup_insert_eq|]. split; [reflexivity|].
    erewrite (bookinstance_detail_found req');
      [|rewrite Hid; cbn [bookinstances Model.set_bookinstances];
        apply lookup_insert_eq].
    reflexivity.
Qed.

Lemma create_then_detail_witness :
  ((@express_validator.run_all Sample.externals
      AuthorController.author_create_post_chains Sample.jane_form).2 = []
   /\ (@express_validator.run_all Sample.externals
         BookInstanceController.bookinstance_create_post_chains Sample.copy_form).2 = [])
  /\ (exists doc,
        authors (@AuthorController.author_create_post Sample.externals "n1"
                   (mkRequest "" Sample.jane_form) Sample.library).1 !! "n1" = Some doc
        /\ Author._id doc = "n1")
  /\ (exists doc,
        bookinstances (@BookInstanceController.bookinstance_create_post Sample.externals
                         "n1" (mkRequest "" Sample.copy_form) Sample.library).1 !! "n1"
        = Some doc
        /\ BookInstance._id doc = "n1").
Proof.
  assert (Ha : (@express_validator.run_all Sample.externals
      AuthorController.author_create_post_chains Sample.jane_form).2 = []) by reflexivity.
  assert (Hi : (@express_validator.run_all Sample.externals
      BookInstanceController.bookinstance_create_post_chains Sample.copy_form).2 = [])
    by reflexivity.
  split; [by split|].
  destruct (@create_then_detail Sample.externals "n1" (mkRequest "" Sample.jane_form)
              (mkRequest "n1" ∅) Sample.library eq_refl) as (Hauthor & _).
  destruct (@create_then_detail Sample.externals "n1" (mkRequest "" Sample.copy_form)
              (mkRequest "n1" ∅) Sample.library eq_refl) as (_ & Hinst).
  split.
  - destruct (Hauthor Ha) as (doc & Hdoc & Hid & _). exists doc. split; assumption.
  - destruct (Hinst Hi) as (doc & Hdoc & Hid & _). exists doc. split; assumption.
Defined.

(** X5: once a delete POST has removed the document its path names (the
    body names the same identifier and, for an Author, no Book refers to
    it), the detail handler answers 404 for that identifier and a second
    delete POST changes nothing. *)
Theorem delete_then_detail_is_404 `{Externals} (req : request) (d : database) :
  (express_validator.get (req_body req) "authorid" = VStr (params_id req) ->
   Model.books_by_author d (params_id req) = [] ->
   let after := (AuthorController.author_delete_post req d).1 in
   AuthorController.author_detail req after
   = (after, [Debug ("id not found on get: " +:+ params_id req);
              Next (Error_ "Author not found" (Some 404))])
   /\ (AuthorController.author_delete_post req after).1 = after)
  /\ (express_validator.get (req_body req) "bookinstanceid" = VStr (params_id req) ->
      is_Some (bookinstances d !! params_id req) ->
      let after := (BookInstanceController.bookinstance_delete_post req d).1 in
      BookInstanceController.bookinstance_detail req after
      = (after, [Debug ("id not found on get: " +:+ params_id req);
                 Next (Error_ "Book copy not found" (Some 404))])
      /\ (BookInstanceController.bookinstance_delete_post req after).1 = after).
Proof.
  split.
  - intros Hbody Hdep after. unfold after.
    rewrite (author_delete_post_removes _ _ Hdep), Hbody. cbn [fst Model.remove_by_id].
    split.
    + apply author_detail_unknown. apply lookup_delete_eq.
    + rewrite author_delete_post_removes by exact Hdep.
      rewrite Hbody. unfold Model.set_authors. simpl.
      by rewrite delete_delete_eq.
  - intros Hbody [i Hi] after. unfold after.
    rewrite (bookinstance_delete_post_found _ _ _ Hi), Hbody.
    cbn [fst Model.remove_by_id].
    split.
    + apply bookinstance_detail_unknown. apply lookup_delete_eq.
    + rewrite bookinstance_delete_post_unknown; [done|]. apply lookup_delete_eq.
Qed.

Lemma delete_then_detail_is_404_witness :
  (express_validator.get ({[ "authorid" := VStr "a2" ]} : gmap string value) "authorid"
   = VStr "a2"
   /\ Model.books_by_author Sample.library "a2" = []
   /\ express_validator.get ({[ "bookinstanceid" := VStr "i1" ]} : gmap string value)
        "bookinstanceid" = VStr "i1"
   /\ is_Some (bookinstances Sample.library !! "i1"))
  /\ (AuthorController.author_detail (mkRequest "a2" {[ "authorid" := VStr "a2" ]})
        (AuthorController.author_delete_post
           (mkRequest "a2" {[ "authorid" := VStr "a2" ]}) Sample.library).1).2
     = [Debug "id not found on get: a2"; Next (Error_ "Author not found" (Some 404))]
  /\ (BookInstanceController.bookinstance_detail
        (mkRequest "i1" {[ "bookinstanceid" := VStr "i1" ]})
        (BookInstanceController.bookinstance_delete_post
           (mkRequest "i1" {[ "bookinstanceid" := VStr "i1" ]}) Sample.library).1).2
     = [Debug "id not found on get: i1"; Next (Error_ "Book copy not found" (Some 404))].
Proof.
  assert (Hbody_a : express_validator.get
            ({[ "authorid" := VStr "a2" ]} : gmap string value) "authorid" = VStr "a2")
    by reflexivity.
  assert (Hfree : Model.books_by_author Sample.library "a2" = []) by reflexivity.
  assert (Hbody_i : express_validator.get
            ({[ "bookinstanceid" := VStr "i1" ]} : gmap string value) "bookinstanceid"
            = VStr "i1") by reflexivity.
  assert (Hsome : is_Some (bookinstances Sample.library !! "i1"))
    by (exists Sample.copy1; reflexivity).
  split; [repeat split; assumption|].
  destruct (@delete_then_detail_is_404 Sample.externals
              (mkRequest "a2" {[ "authorid" := VStr "a2" ]}) Sample.library)
    as (Hauthor & _).
  destruct (@delete_then_detail_is_404 Sample.externals
              (mkRequest "i1" {[ "bookinstanceid" := VStr "i1" ]}) Sample.library)
    as (_ & Hinst).
  destruct (Hauthor Hbody_a Hfree) as (Hdetail_a & _).
  destruct (Hinst Hbody_i Hsome) as (Hdetail_i & _).
  split.
  - exact (f_equal snd Hdetail_a).
  - exact (f_equal snd Hdetail_i).
Defined.

Section References.
Import Model.

Lemma book_in_books_by_author d i b :
  books d !! i = Some b ->
  project_title_summary b ∈ books_by_author d (Book.author b).
Proof.
  intros Hb. unfold books_by_author, docs.
  apply list_elem_of_fmap. exists b. split; [done|].
  apply list_elem_of_In, filter_In. split.
  - apply list_elem_of_In, list_elem_of_fmap. exists (i, b). split; [done|].
    by apply elem_of_map_to_list.
  - apply String.eqb_refl.
Qed.

End References.

(** X6: deleting through the form keeps every book's author.  If every
    Book refers to a stored Author and the body names the author of the
    path, then after the delete POST every Book still refers to a stored
    Author. *)
Theorem author_delete_post_keeps_references (req : request) (d : database) :
  Facts.books_have_authors d ->
  express_validator.get (req_body req) "authorid" = VStr (params_id req) ->
  Facts.books_have_authors (AuthorController.author_delete_post req d).1.
Proof.
  intros Hrefs Hbody.
  destruct (Model.books_by_author d (params_id req)) as [|s l] eqn:Hdep.
  - rewrite (author_delete_post_removes _ _ Hdep), Hbody. intros i b Hb.
    cbn [fst Model.remove_by_id] in *. simpl in *.
    rewrite lookup_delete_ne; [by eapply Hrefs|].
    intros Heq. pose proof (book_in_books_by_author d i b Hb) as Hin.
    rewrite <- Heq, Hdep in Hin. by apply not_elem_of_nil in Hin.
  - rewrite author_delete_post_blocked by (by rewrite Hdep). exact Hrefs.
Qed.

Lemma sample_library_references : Facts.books_have_authors Sample.library.
Proof.
  intros i b Hb. simpl in Hb. apply lookup_singleton_Some in Hb as [_ <-].
  exists Sample.austen. reflexivity.
Qed.

Lemma author_delete_post_keeps_references_witness :
  (Facts.books_have_authors Sample.library
   /\ express_validator.get ({[ "authorid" := VStr "a2" ]} : gmap string value) "authorid"
      = VStr "a2")
  /\ Facts.books_have_authors
       (AuthorController.author_delete_post
          (mkRequest "a2" {[ "authorid" := VStr "a2" ]}) Sample.library).1.
Proof.
  assert (Hbody : express_validator.get
            ({[ "authorid" := VStr "a2" ]} : gmap string value) "authorid" = VStr "a2")
    by reflexivity.
  split; [split; [exact sample_library_references | exact Hbody]|].
  exact (author_delete_post_keeps_references
           (mkRequest "a2" {[ "authorid" := VStr "a2" ]}) Sample.library
           sample_library_references Hbody).
Defined.

(** X7: the guard of the delete POST can be passed with one author and
    spent on another.  When no Book refers to the author of the path and
    the body names an author that some Book refers to, that author is
    removed all the same, and the Book is left referring to no stored
    Author. *)
Theorem author_delete_post_can_orphan_books
    (req : request) (d : database) (bid i : string) (b : Book.t) :
  express_validator.get (req_body req) "authorid" = VStr bid ->
  Model.books_by_author d (params_id req) = [] ->
  books d !! i = Some b ->
  Book.author b = bid ->
  ~ Facts.books_have_authors (AuthorController.author_delete_post req d).1.
Proof.
  intros Hbody Hdep Hb Hauthor Hrefs.
  rewrite (author_delete_post_removes _ _ Hdep), Hbody in Hrefs.
  destruct (Hrefs i b Hb) as [a Ha].
  simpl in Ha. rewrite Hauthor, lookup_delete_eq in Ha. discriminate Ha.
Qed.

Lemma author_delete_post_can_orphan_books_witness :
  (express_validator.get ({[ "authorid" := VStr "a1" ]} : gmap string value) "authorid"
   = VStr "a1"
   /\ Model.books_by_author Sample.library "a2" = []
   /\ books Sample.library !! "b1" = Some Sample.emma
   /\ Book.author Sample.emma = "a1")
  /\ ~ Facts.books_have_authors
        (AuthorController.author_delete_post
           (mkRequest "a2" {[ "authorid" := VStr "a1" ]}) Sample.library).1.
Proof.
  assert (Hbody : express_validator.get
            ({[ "authorid" := VStr "a1" ]} : gmap string value) "authorid" = VStr "a1")
    by reflexivity.
  assert (Hfree : Model.books_by_author Sample.library "a2" = []) by reflexivity.
  assert (Hbook : books Sample.library !! "b1" = Some Sample.emma) by reflexivity.
  split; [repeat split; assumption|].
  exact (author_delete_post_can_orphan_books
           (mkRequest "a2" {[ "authorid" := VStr "a1" ]}) Sample.library
           "a1" "b1" Sample.emma Hbody Hfree Hbook eq_refl).
Defined.

(** X8: an update POST never creates a document.  When the submission is
    valid but the path identifier resolves to nothing, nothing is written,
    no redirect is sent, and the handler ends with the [TypeError] of
    reading [url] from the [null] result, passed to [next]. *)
Theorem update_post_unknown_id_writes_nothing `{Externals}
    (req : request) (d : database) :
  (authors d !! params_id req = None ->
   (express_validator.run_all AuthorController.author_update_post_chains
      (req_body req)).2 = [] ->
   AuthorController.author_update_post req d = (d, [Next (TypeError "url")]))
  /\ (bookinstances d !! params_id req = None ->
      (express_validator.run_all BookInstanceController.bookinstance_update_post_chains
         (req_body req)).2 = [] ->
      BookInstanceController.bookinstance_update_post req d
      = (d, [Next (TypeError "url")])).
Proof.
  split; [apply author_update_post_unknown | apply bookinstance_update_post_unknown].
Qed.

Lemma update_post_unknown_id_writes_nothing_witness :
  (authors Sample.library !! "zz" = None
   /\ (@express_validator.run_all Sample.externals
         AuthorController.author_update_post_chains Sample.jane_form).2 = []
   /\ bookinstances Sample.library !! "zz" = None
   /\ (@express_validator.run_all Sample.externals
         BookInstanceController.bookinstance_update_post_chains Sample.copy_form).2 = [])
  /\ @AuthorController.author_update_post Sample.externals
       (mkRequest "zz" Sample.jane_form) Sample.library
     = (Sample.library, [Next (TypeError "url")])
  /\ @BookInstanceController.bookinstance_update_post Sample.externals
       (mkRequest "zz" Sample.copy_form) Sample.library
     = (Sample.library, [Next (TypeError "url")]).
Proof.
  assert (Ha : authors Sample.library !! "zz" = None) by reflexivity.
  assert (Hva : (@express_validator.run_all Sample.externals
      AuthorController.author_update_post_chains Sample.jane_form).2 = []) by reflexivity.
  assert (Hi : bookinstances Sample.library !! "zz" = None) by reflexivity.
  assert (Hvi : (@express_validator.run_all Sample.externals
      BookInstanceController.bookinstance_update_post_chains Sample.copy_form).2 = [])
    by reflexivity.
  split; [repeat split; assumption|].
  destruct (@update_post_unknown_id_writes_nothing Sample.externals
              (mkRequest "zz" Sample.jane_form) Sample.library) as (Hauthor & _).
  destruct (@update_post_unknown_id_writes_nothing Sample.externals
              (mkRequest "zz" Sample.copy_form) Sample.library) as (_ & Hinst).
  split; [exact (Hauthor Ha Hva) | exact (Hinst Hi Hvi)].
Defined.

(** X9: a valid update POST can be read back and repeated.  Afterwards the
    update GET of the same identifier renders the form with the document
    that was written, and sending the same submission again leaves the
    store as the first one left it. *)
Theorem update_then_update_get `{Externals} (req : request) (d : database) :
  (is_Some (authors d !! params_id req) ->
   (express_validator.run_all AuthorController.author_update_post_chains
      (req_body req)).2 = [] ->
   let after := (AuthorController.author_update_post req d).1 in
   exists doc,
     authors after !! params_id req = Some doc
     /\ AuthorController.author_update_get req after
        = (after,
           [Render "index"
              [("title", DString "Update Author");
               ("author", DAuthor (Some doc));
               ("route", DString "author_form.ejs")]])
     /\ (AuthorController.author_update_post req after).1 = after)
  /\ (is_Some (bookinstances d !! params_id req) ->
      (express_validator.run_all BookInstanceController.bookinstance_update_post_chains
         (req_body req)).2 = [] ->
      let after := (BookInstanceController.bookinstance_update_post req d).1 in
      exists doc,
        bookinstances after !! params_id req = Some doc
        /\ BookInstanceController.bookinstance_update_get req after
           = (after,
              [Render "index"
                 [("title", DString "Update Book Instance");
                  ("bookinstance", DBookInstance doc);
                  ("book_list", DBooks (Model.docs (books d)));
                  ("route", DString "bookinstance_form.ejs")]])
        /\ (BookInstanceController.bookinstance_update_post req after).1 = after).
Proof.
  split.
  - intros [old Hold] Hvalid after. unfold after.
    rewrite (author_update_post_valid _ _ _ Hold Hvalid). cbn [fst].
    eexists. split; [apply lookup_insert_eq|]. split.
    + erewrite author_update_get_found; [reflexivity|].
      cbn [authors Model.set_authors]. apply lookup_insert_eq.
    + erewrite author_update_post_valid;
        [|cbn [authors Model.set_authors]; apply lookup_insert_eq|exact Hvalid].
      unfold Model.set_authors. simpl. by rewrite insert_insert_eq.
  - intros [old Hold] Hvalid after. unfold after.
    rewrite (bookinstance_update_post_valid _ _ _ Hold Hvalid). cbn [fst].
    eexists. split; [apply lookup_insert_eq|]. split.
    + erewrite bookinstance_update_get_found; [reflexivity|].
      cbn [bookinstances Model.set_bookinstances]. apply lookup_insert_eq.
    + erewrite bookinstance_update_post_valid;
        [|cbn [bookinstances Model.set_bookinstances]; apply lookup_insert_eq
         |exact Hvalid].
      unfold Model.set_bookinstances. simpl. by rewrite insert_insert_eq.
Qed.

Lemma update_then_update_get_witness :
  (is_Some (authors Sample.library !! "a1")
   /\ (@express_validator.run_all Sample.externals
         AuthorController.author_update_post_chains Sample.jane_form).2 = []
   /\ is_Some (bookinstances Sample.library !! "i1")
   /\ (@express_validator.run_all Sample.externals
         BookInstanceController.bookinstance_update_post_chains Sample.copy_form).2 = [])
  /\ (exists doc,
        authors (@AuthorController.author_update_post Sample.externals
                   (mkRequest "a1" Sample.jane_form) Sample.library).1 !! "a1"
        = Some doc)
  /\ (exists doc,
        bookinstances (@BookInstanceController.bookinstance_update_post Sample.externals
                         (mkRequest "i1" Sample.copy_form) Sample.library).1 !! "i1"
        = Some doc).
Proof.
  assert (Ha : is_Some (authors Sample.library !! "a1"))
    by (exists Sample.austen; reflexivity).
  assert (Hva : (@express_validator.run_all Sample.externals
      AuthorController.author_update_post_chains Sample.jane_form).2 = []) by reflexivity.
  assert (Hi : is_Some (bookinstances Sample.library !! "i1"))
    by (exists Sample.copy1; reflexivity).
  assert (Hvi : (@express_validator.run_all Sample.externals
      BookInstanceController.bookinstance_update_post_chains Sample.copy_form).2 = [])
    by reflexivity.
  split; [repeat split; assumption|].
  destruct (@update_then_update_get Sample.externals
              (mkRequest "a1" Sample.jane_form) Sample.library) as (Hauthor & _).
  destruct (@update_then_update_get Sample.externals
              (mkRequest "i1" Sample.copy_form) Sample.library) as (_ & Hinst).
  split.
  - destruct (Hauthor Ha Hva) as (doc & Hdoc & _). exists doc. exact Hdoc.
  - destruct (Hinst Hi Hvi) as (doc & Hdoc & _). exists doc. exact Hdoc.
Defined.

(** X10: when the author of the path is stored and has books, the delete
    POST answers exactly as the delete GET does: the same confirmation
    view with the same data, and the same store. *)
Theorem author_delete_post_blocked_as_get (req : request) (d : database) :
  is_Some (authors d !! params_id req) ->
  Model.books_by_author d (params_id req) <> [] ->
  AuthorController.author_delete_post req d = AuthorController.author_delete_get req d.
Proof.
  intros [a Ha] Hdep.
  rewrite (author_delete_post_blocked _ _ Hdep), (author_delete_get_found _ _ _ Ha), Ha.
  reflexivity.
Qed.

Lemma author_delete_post_blocked_as_get_witness :
  (is_Some (authors Sample.library !! "a1")
   /\ Model.books_by_author Sample.library "a1" <> [])
  /\ AuthorController.author_delete_post (mkRequest "a1" Sample.delete_form) Sample.library
     = AuthorController.author_delete_get (mkRequest "a1" Sample.delete_form) Sample.library.
Proof.
  assert (Ha : is_Some (authors Sample.library !! "a1"))
    by (exists Sample.austen; reflexivity).
  assert (Hbusy : Model.books_by_author Sample.library "a1" <> [])
    by (vm_compute; discriminate).
  split; [split; assumption|].
  exact (author_delete_post_blocked_as_get
           (mkRequest "a1" Sample.delete_form) Sample.library Ha Hbusy).
Defined.

Section Removal.
Import Model.

Lemma remove_by_id_subseteq {A : Type} (v : value) (m : gmap string A) :
  remove_by_id v m ⊆ m.
Proof. destruct v; simpl; try done. apply delete_subseteq. Qed.

Lemma remove_by_id_size {A : Type} (v : value) (m : gmap string A) :
  size m <= S (size (remove_by_id v m)).
Proof.
  destruct v as [| |i|t]; simpl; try lia.
  rewrite map_size_delete. destruct (m !! i); simpl; lia.
Qed.

End Removal.

(** X11: a delete POST only ever removes, and at most one document of its
    own collection.  Whatever the request, the other collections are as
    before, every document stored afterwards was stored before unchanged,
    and the collection has lost at most one document. *)
Theorem delete_post_removes_at_most_one (req : request) (d : database) :
  (let after := (AuthorController.author_delete_post req d).1 in
   books after = books d /\ genres after = genres d
   /\ bookinstances after = bookinstances d
   /\ authors after ⊆ authors d
   /\ size (authors d) <= S (size (authors after)))
  /\ (let after := (BookInstanceController.bookinstance_delete_post req d).1 in
      authors after = authors d /\ books after = books d /\ genres after = genres d
      /\ bookinstances after ⊆ bookinstances d
      /\ size (bookinstances d) <= S (size (bookinstances after))).
Proof.
  split.
  - destruct (Model.books_by_author d (params_id req)) as [|s l] eqn:Hdep.
    + rewrite (author_delete_post_removes _ _ Hdep). simpl.
      repeat split; [apply remove_by_id_subseteq | apply remove_by_id_size].
    + rewrite author_delete_post_blocked by (by rewrite Hdep). simpl.
      repeat split; [done | lia].
  - destruct (bookinstances d !! params_id req) as [i|] eqn:Hi.
    + rewrite (bookinstance_delete_post_found _ _ _ Hi). simpl.
      repeat split; [apply remove_by_id_subseteq | apply remove_by_id_size].
    + rewrite (bookinstance_delete_post_unknown _ _ Hi). simpl.
      repeat split; [done | lia].
Qed.

(** ** Facts about trimming and escaping *)
Section Strings.

Ltac each_char c := destruct c as [[] [] [] [] [] [] [] []].

Lemma escape_char_markup_free c : Facts.markup_free (validator.escape_char c) = true.
Proof. each_char c; reflexivity. Qed.

Lemma markup_free_app s t :
  Facts.markup_free (s +:+ t) = Facts.markup_free s && Facts.markup_free t.
Proof.
  induction s as [|c s IH]; [reflexivity|]. simpl. rewrite IH.
  by rewrite andb_assoc.
Qed.

Lemma escape_markup_free s : Facts.markup_free (validator.escape s) = true.
Proof.
  induction s as [|c s IH]; [reflexivity|]. simpl.
  by rewrite markup_free_app, escape_char_markup_free, IH.
Qed.

Lemma all_alnum_app s t :
  validator.all_alnum (s +:+ t) = validator.all_alnum s && validator.all_alnum t.
Proof.
  induction s as [|c s IH]; [reflexivity|]. simpl. rewrite IH.
  by rewrite andb_assoc.
Qed.

Lemma escape_char_alnum c :
  validator.all_alnum (validator.escape_char c) = true ->
  validator.escape_char c = String c EmptyString /\ validator.is_alnum c = true.
Proof. each_char c; simpl; intros Hc; try discriminate Hc; by split. Qed.

(** An escaped text that is alphanumeric was not changed by [escape]. *)
Lemma escape_alnum s :
  validator.all_alnum (validator.escape s) = true -> validator.escape s = s.
Proof.
  induction s as [|c s IH]; [reflexivity|]. simpl.
  rewrite all_alnum_app. intros [Hc Hs]%andb_prop.
  destruct (escape_char_alnum c Hc) as [-> _]. simpl. by rewrite IH.
Qed.

Lemma alnum_not_space c : validator.is_alnum c = true -> validator.is_space c = false.
Proof. each_char c; simpl; intros Hc; try discriminate Hc; reflexivity. Qed.

Lemma alnum_escape_char c :
  validator.is_alnum c = true -> validator.escape_char c = String c EmptyString.
Proof. each_char c; simpl; intros Hc; try discriminate Hc; reflexivity. Qed.

Lemma all_alnum_escape s : validator.all_alnum s = true -> validator.escape s = s.
Proof.
  induction s as [|c s IH]; [reflexivity|]. simpl. intros [Hc Hs]%andb_prop.
  by rewrite (alnum_escape_char c Hc), IH.
Qed.

Lemma all_alnum_rtrim s : validator.all_alnum s = true -> validator.rtrim s = s.
Proof.
  induction s as [|c s IH]; [reflexivity|]. simpl. intros [Hc Hs]%andb_prop.
  rewrite (IH Hs). destruct s; [by rewrite (alnum_not_space c Hc) | reflexivity].
Qed.

Lemma all_alnum_trim s : validator.all_alnum s = true -> validator.trim s = s.
Proof.
  intros Hs. unfold validator.trim.
  destruct s as [|c s]; [reflexivity|].
  pose proof Hs as [Hc _]%andb_prop. simpl. rewrite (alnum_not_space c Hc).
  by apply all_alnum_rtrim.
Qed.

Lemma ltrim_all_space s :
  validator.ltrim s = EmptyString <-> Facts.all_space s = true.
Proof.
  induction s as [|c s IH]; [done|]. simpl.
  destruct (validator.is_space c); simpl; [exact IH | done].
Qed.

Lemma rtrim_all_space s :
  validator.rtrim s = EmptyString <-> Facts.all_space s = true.
Proof.
  induction s as [|c s IH]; [done|]. simpl.
  destruct (validator.rtrim s) as [|c' t] eqn:Hr.
  - destruct (validator.is_space c); simpl; [|done].
    split; [intros _; by apply IH | done].
  - split; [done|]. intros [_ Hs]%andb_prop. apply IH in Hs. discriminate Hs.
Qed.

Lemma ltrim_space_free s :
  Facts.all_space (validator.ltrim s) = true -> Facts.all_space s = true.
Proof.
  induction s as [|c s IH]; [done|]. simpl.
  destruct (validator.is_space c) eqn:Hc; simpl; [exact IH|].
  rewrite Hc. done.
Qed.

(** [trim] leaves nothing exactly when the text is made of white space. *)
Lemma trim_empty s : validator.trim s = EmptyString <-> Facts.all_space s = true.
Proof.
  unfold validator.trim. rewrite rtrim_all_space. split.
  - apply ltrim_space_free.
  - intros Hs. by apply ltrim_all_space in Hs as ->.
Qed.

Lemma isLength_1 s : validator.isLength 1 s = negb (String.eqb s EmptyString).
Proof. by destruct s. Qed.

End Strings.

(** ** Facts about the chains of a route *)
Section ChainFacts.
Import express_validator.
Context `{Externals}.

Lemma run_stack_paths c st v errs e :
  e ∈ (run_stack c st v errs).2 -> e ∈ errs \/ path e = field c.
Proof.
  revert v errs. induction st as [|it st IH]; intros v errs; [by left|].
  simpl. destruct (optional_falsy c && negb (truthy v)); [apply IH|].
  destruct it as [s|val m]; [apply IH|].
  destruct (validate val (toString v)); [apply IH|].
  intros [Hin|Hpath]%IH; [|by right].
  apply elem_of_app in Hin as [Hin|Hin]; [by left|].
  apply list_elem_of_singleton in Hin as ->. by right.
Qed.

Lemma run_all_paths cs b e :
  e ∈ (run_all cs b).2 -> path e ∈ field <$> cs.
Proof.
  revert b. induction cs as [|c cs IH]; intros b.
  - simpl. by intros ?%not_elem_of_nil.
  - rewrite run_all_cons. cbn [snd]. rewrite fmap_cons.
    intros [Hin|Hin]%elem_of_app.
    + apply run_stack_paths in Hin as [Hin| ->]; [by apply not_elem_of_nil in Hin|].
      apply list_elem_of_here.
    + apply list_elem_of_further. by eapply IH.
Qed.

Lemma run_all_untouched cs b g :
  g ∉ field <$> cs -> get (run_all cs b).1 g = get b g.
Proof.
  revert b. induction cs as [|c cs IH]; intros b; [done|].
  rewrite fmap_cons. intros [Hne Hrest]%not_elem_of_cons.
  rewrite run_all_cons. cbn [fst]. rewrite (IH _ Hrest), run_get.
  by rewrite decide_False.
Qed.

Lemma nonblank_all_space v :
  Facts.all_space (toString v) = true -> nonblank v = false.
Proof.
  intros Hs. unfold nonblank. apply trim_empty in Hs as ->. reflexivity.
Qed.

Lemma blank_text v :
  Facts.all_space (toString v) = true -> text v = VStr "" /\ alnum v = false.
Proof.
  intros Hs. unfold text, alnum. apply trim_empty in Hs as ->. by split.
Qed.

End ChainFacts.

(** X12: validation reports and rewrites the declared fields only.  For
    any list of chains and any body, every error carries the name of a
    field that some chain of the list is declared for, and a field that no
    chain is declared for reaches the handler as it was submitted. *)
Theorem validation_stays_on_declared_fields `{Externals}
    (cs : list express_validator.ValidationChain) (b : gmap string value) :
  (forall e,
     e ∈ (express_validator.run_all cs b).2 ->
     express_validator.path e ∈ express_validator.field <$> cs)
  /\ (forall g,
        g ∉ express_validator.field <$> cs ->
        express_validator.get (express_validator.run_all cs b).1 g
        = express_validator.get b g).
Proof. split; [apply run_all_paths | apply run_all_untouched]. Qed.

Lemma validation_stays_on_declared_fields_witness :
  (express_validator.mkError "first_name" "First name must be specified." (VStr "")
     ∈ (@express_validator.run_all Sample.externals
          AuthorController.author_create_post_chains Sample.nameless_form).2
   /\ "authorid" ∉ express_validator.field <$> AuthorController.author_create_post_chains)
  /\ "first_name" ∈ express_validator.field <$> AuthorController.author_create_post_chains
  /\ express_validator.get
       (@express_validator.run_all Sample.externals
          AuthorController.author_create_post_chains Sample.delete_form).1 "authorid"
     = VStr "a1".
Proof.
  assert (Hin : express_validator.mkError "first_name" "First name must be specified."
                  (VStr "")
                ∈ (@express_validator.run_all Sample.externals
                     AuthorController.author_create_post_chains Sample.nameless_form).2)
    by (vm_compute; apply list_elem_of_here).
  assert (Hout : "authorid"
                 ∉ express_validator.field <$> AuthorController.author_create_post_chains)
    by (vm_compute; intros Hbad; repeat (apply elem_of_cons in Hbad as [Hbad|Hbad];
          [discriminate Hbad|]); by apply not_elem_of_nil in Hbad).
  split; [by split|].
  destruct (@validation_stays_on_declared_fields Sample.externals
              AuthorController.author_create_post_chains Sample.nameless_form)
    as (Hpaths & _).
  destruct (@validation_stays_on_declared_fields Sample.externals
              AuthorController.author_create_post_chains Sample.delete_form)
    as (_ & Hkept).
  split; [exact (Hpaths _ Hin)|]. rewrite (Hkept _ Hout). reflexivity.
Defined.



(** X14: on Author create a blank [first_name] is reported twice: the
    errors start with "First name must be specified." and "First name has
    non-alphanumeric characters.", both on the empty text. *)
Theorem author_create_blank_name_two_errors `{Externals} (b : gmap string value) :
  Facts.all_space (express_validator.toString (express_validator.get b "first_name"))
  = true ->
  exists rest,
    (express_validator.run_all AuthorController.author_create_post_chains b).2
    = express_validator.mkError "first_name" "First name must be specified." (VStr "")
      :: express_validator.mkError "first_name"
           "First name has non-alphanumeric characters." (VStr "")
      :: rest.
Proof.
  intros Hs.
  rewrite run_all_errors by (by apply (bool_decide_unpack _)).
  unfold AuthorController.author_create_post_chains. cbn [flat_map].
  rewrite !run_field_name.
  cbn [snd express_validator.field express_validator.body express_validator.trim
       express_validator.isLength express_validator.escape express_validator.withMessage
       express_validator.isAlphanumeric express_validator.push].
  destruct (blank_text _ Hs) as [-> ->]. rewrite (nonblank_all_space _ Hs).
  unfold express_validator.toString in Hs |- *.
  destruct (express_validator.get b "first_name") as [| |s|t] eqn:Hv.
  - eexists. reflexivity.
  - eexists. reflexivity.
  - apply trim_empty in Hs as ->. eexists. reflexivity.
  - apply trim_empty in Hs as ->. eexists. reflexivity.
Qed.

Lemma author_create_blank_name_two_errors_witness :
  Facts.all_space
    (@express_validator.toString Sample.externals
       (express_validator.get Sample.nameless_form "first_name")) = true
  /\ exists rest,
       (@express_validator.run_all Sample.externals
          AuthorController.author_create_post_chains Sample.nameless_form).2
       = express_validator.mkError "first_name" "First name must be specified." (VStr "")
         :: express_validator.mkError "first_name"
              "First name has non-alphanumeric characters." (VStr "")
         :: rest.
Proof.
  assert (Hname : Facts.all_space
     (@express_validator.toString Sample.externals
        (express_validator.get Sample.nameless_form "first_name")) = true) by reflexivity.
  split; [exact Hname|].
  exact (@author_create_blank_name_two_errors Sample.externals Sample.nameless_form Hname).
Defined.

(** X15: an author that the create POST stores has alphanumeric names.
    When the submission is valid, the stored [first_name] and
    [family_name] are the submitted texts with the surrounding white space
    removed -- escaping changed nothing -- and each is a non-empty
    alphanumeric string. *)
Theorem author_create_stores_alphanumeric_names `{Externals}
    (oid : string) (req : request) (d : database) :
  (express_validator.run_all AuthorController.author_create_post_chains
     (req_body req)).2 = [] ->
  exists doc first family,
    authors (AuthorController.author_create_post oid req d).1 !! oid = Some doc
    /\ Author.first_name doc = VStr first
    /\ Author.family_name doc = VStr family
    /\ first = validator.trim
                 (express_validator.toString
                    (express_validator.get (req_body req) "first_name"))
    /\ family = validator.trim
                  (express_validator.toString
                     (express_validator.get (req_body req) "family_name"))
    /\ validator.isAlphanumeric first = true
    /\ validator.isAlphanumeric family = true.
Proof.
  intros Hvalid. rewrite (author_create_post_valid _ _ _ Hvalid).
  apply author_create_accepts in Hvalid.
  apply andb_prop in Hvalid as [Hvalid _]. apply andb_prop in Hvalid as [Hvalid _].
  apply andb_prop in Hvalid as [Hvalid Hfamily_ok].
  apply andb_prop in Hvalid as [Hvalid _].
  apply andb_prop in Hvalid as [_ Hfirst_ok].
  unfold express_validator.alnum in Hfirst_ok, Hfamily_ok.
  assert (Hfirst : validator.escape
            (validator.trim (express_validator.toString
               (express_validator.get (req_body req) "first_name")))
          = validator.trim (express_validator.toString
               (express_validator.get (req_body req) "first_name"))).
  { apply escape_alnum. unfold validator.isAlphanumeric in Hfirst_ok.
    by destruct (andb_prop _ _ Hfirst_ok). }
  assert (Hfamily : validator.escape
            (validator.trim (express_validator.toString
               (express_validator.get (req_body req) "family_name")))
          = validator.trim (express_validator.toString
               (express_validator.get (req_body req) "family_name"))).
  { apply escape_alnum. unfold validator.isAlphanumeric in Hfamily_ok.
    by destruct (andb_prop _ _ Hfamily_ok). }
  rewrite Hfirst in Hfirst_ok. rewrite Hfamily in Hfamily_ok.
  eexists _, _, _. split; [apply lookup_insert_eq|].
  cbn [Author.first_name Author.family_name]. unfold express_validator.text.
  rewrite Hfirst, Hfamily.
  split; [reflexivity|]. split; [reflexivity|]. split; [reflexivity|].
  split; [reflexivity|]. split; assumption.
Qed.

Lemma author_create_stores_alphanumeric_names_witness :
  (@express_validator.run_all Sample.externals
     AuthorController.author_create_post_chains Sample.jane_form).2 = []
  /\ exists doc,
       authors (@AuthorController.author_create_post Sample.externals "n1"
                  (mkRequest "" Sample.jane_form) Sample.library).1 !! "n1" = Some doc
       /\ Author.first_name doc = VStr "Jane"
       /\ Author.family_name doc = VStr "Austen".
Proof.
  assert (Hvalid : (@express_validator.run_all Sample.externals
     AuthorController.author_create_post_chains Sample.jane_form).2 = []) by reflexivity.
  split; [exact Hvalid|].
  destruct (@author_create_stores_alphanumeric_names Sample.externals "n1"
              (mkRequest "" Sample.jane_form) Sample.library Hvalid)
    as (doc & first & family & Hdoc & Hfirst & Hfamily & -> & -> & _).
  exists doc. split; [exact Hdoc|]. split; [exact Hfirst | exact Hfamily].
Defined.

(** X16: the texts a validated POST stores carry no markup.  In a
    BookInstance stored by a valid create, [book], [imprint] and [status]
    are strings without any of the characters that [escape] rewrites
    (quotes, angle brackets, slash, backslash, backtick); in a document
    written by a valid update, so are all four submitted fields. *)
Theorem stored_text_has_no_markup `{Externals}
    (oid : string) (req : request) (d : database) :
  ((express_validator.run_all BookInstanceController.bookinstance_create_post_chains
      (req_body req)).2 = [] ->
   exists book imprint status due_back,
     bookinstances (BookInstanceController.bookinstance_create_post oid req d).1 !! oid
     = Some (BookInstance.new oid (VStr book) (VStr imprint) (VStr status) due_back)
     /\ Facts.markup_free book = true
     /\ Facts.markup_free imprint = true
     /\ Facts.markup_free status = true)
  /\ (is_Some (bookinstances d !! params_id req) ->
      (express_validator.run_all BookInstanceController.bookinstance_update_post_chains
         (req_body req)).2 = [] ->
      exists book imprint status due_back,
        bookinstances (BookInstanceController.bookinstance_update_post req d).1
          !! params_id req
        = Some (BookInstance.new (params_id req) (VStr book) (VStr imprint)
                  (VStr status) (VStr due_back))
        /\ Facts.markup_free book = true
        /\ Facts.markup_free imprint = true
        /\ Facts.markup_free status = true
        /\ Facts.markup_free due_back = true)
  /\ (is_Some (authors d !! params_id req) ->
      (express_validator.run_all AuthorController.author_update_post_chains
         (req_body req)).2 = [] ->
      exists first family birth death,
        authors (AuthorController.author_update_post req d).1 !! params_id req
        = Some (Author.new (params_id req) (VStr first) (VStr family)
                  (VStr birth) (VStr death))
        /\ Facts.markup_free first = true
        /\ Facts.markup_free family = true
        /\ Facts.markup_free birth = true
        /\ Facts.markup_free death = true).
Proof.
  split; [|split].
  - intros Hvalid. rewrite (bookinstance_create_post_valid _ _ _ Hvalid).
    eexists _, _, _, _. split; [apply lookup_insert_eq|].
    repeat split; apply escape_markup_free.
  - intros [old Hold] Hvalid. rewrite (bookinstance_update_post_valid _ _ _ Hold Hvalid).
    eexists _, _, _, _. split; [apply lookup_insert_eq|].
    repeat split; apply escape_markup_free.
  - intros [old Hold] Hvalid. rewrite (author_update_post_valid _ _ _ Hold Hvalid).
    eexists _, _, _, _. split; [apply lookup_insert_eq|].
    repeat split; apply escape_markup_free.
Qed.

Lemma stored_text_has_no_markup_witness :
  ((@express_validator.run_all Sample.externals
      BookInstanceController.bookinstance_create_post_chains Sample.copy_form).2 = []
   /\ is_Some (bookinstances Sample.library !! "i1")
   /\ (@express_validator.run_all Sample.externals
         BookInstanceController.bookinstance_update_post_chains Sample.copy_form).2 = []
   /\ is_Some (authors Sample.library !! "a1")
   /\ (@express_validator.run_all Sample.externals
         AuthorController.author_update_post_chains Sample.jane_form).2 = [])
  /\ is_Some
       (bookinstances (@BookInstanceController.bookinstance_create_post Sample.externals
                         "n1" (mkRequest "" Sample.copy_form) Sample.library).1 !! "n1")
  /\ is_Some
       (bookinstances (@BookInstanceController.bookinstance_update_post Sample.externals
                         (mkRequest "i1" Sample.copy_form) Sample.library).1 !! "i1")
  /\ is_Some
       (authors (@AuthorController.author_update_post Sample.externals
                   (mkRequest "a1" Sample.jane_form) Sample.library).1 !! "a1").
Proof.
  assert (Hc : (@express_validator.run_all Sample.externals
      BookInstanceController.bookinstance_create_post_chains Sample.copy_form).2 = [])
    by reflexivity.
  assert (Hi : is_Some (bookinstances Sample.library !! "i1"))
    by (exists Sample.copy1; reflexivity).
  assert (Hu : (@express_validator.run_all Sample.externals
      BookInstanceController.bookinstance_update_post_chains Sample.copy_form).2 = [])
    by reflexivity.
  assert (Ha : is_Some (authors Sample.library !! "a1"))
    by (exists Sample.austen; reflexivity).
  assert (Hv : (@express_validator.run_all Sample.externals
      AuthorController.author_update_post_chains Sample.jane_form).2 = []) by reflexivity.
  split; [repeat split; assumption|].
  destruct (@stored_text_has_no_markup Sample.externals "n1"
              (mkRequest "" Sample.copy_form) Sample.library) as (Hcreate & _).
  destruct (@stored_text_has_no_markup Sample.externals "n1"
              (mkRequest "i1" Sample.copy_form) Sample.library) as (_ & Hupdate & _).
  destruct (@stored_text_has_no_markup Sample.externals "n1"
              (mkRequest "a1" Sample.jane_form) Sample.library) as (_ & _ & Hauthor).
  split; [|split].
  - destruct (Hcreate Hc) as (s1 & s2 & s3 & v & Hdoc & _). eexists. exact Hdoc.
  - destruct (Hupdate Hi Hu) as (s1 & s2 & s3 & s4 & Hdoc & _). eexists. exact Hdoc.
  - destruct (Hauthor Ha Hv) as (s1 & s2 & s3 & s4 & Hdoc & _). eexists. exact Hdoc.
Defined.

(** X17: the names of an author that create accepted survive the update
    form unchanged.  An alphanumeric name passes the update chain for
    [first_name] or [family_name] without an error and comes out as it
    went in. *)
Theorem alphanumeric_name_passes_update `{Externals} (b : gmap string value) (s : string) :
  validator.isAlphanumeric s = true ->
  (express_validator.get b "first_name" = VStr s ->
   express_validator.get
     (express_validator.run_all AuthorController.author_update_post_chains b).1
     "first_name" = VStr s)
  /\ (express_validator.get b "family_name" = VStr s ->
      express_validator.get
        (express_validator.run_all AuthorController.author_update_post_chains b).1
        "family_name" = VStr s)
  /\ (express_validator.get b "first_name" = VStr s ->
      express_validator.nonblank (express_validator.get b "first_name") = true).
Proof.
  intros Halnum. unfold validator.isAlphanumeric in Halnum.
  apply andb_prop in Halnum as [Hne Hall].
  assert (Htext : express_validator.text (VStr s) = VStr s).
  { unfold express_validator.text. simpl.
    by rewrite (all_alnum_trim _ Hall), (all_alnum_escape _ Hall). }
  destruct (author_update_values b) as (Hfirst & Hfamily & _).
  split; [|split].
  - intros Hv. by rewrite Hfirst, Hv.
  - intros Hv. by rewrite Hfamily, Hv.
  - intros Hv. rewrite Hv. unfold express_validator.nonblank. simpl.
    rewrite (all_alnum_trim _ Hall), isLength_1. exact Hne.
Qed.

Lemma alphanumeric_name_passes_update_witness :
  (validator.isAlphanumeric "Jane" = true
   /\ express_validator.get
        ({[ "first_name" := VStr "Jane"; "family_name" := VStr "Jane" ]}
           : gmap string value) "first_name" = VStr "Jane"
   /\ express_validator.get
        ({[ "first_name" := VStr "Jane"; "family_name" := VStr "Jane" ]}
           : gmap string value) "family_name" = VStr "Jane")
  /\ express_validator.get
       (@express_validator.run_all Sample.externals
          AuthorController.author_update_post_chains
          {[ "first_name" := VStr "Jane"; "family_name" := VStr "Jane" ]}).1
       "first_name" = VStr "Jane"
  /\ express_validator.get
       (@express_validator.run_all Sample.externals
          AuthorController.author_update_post_chains
          {[ "first_name" := VStr "Jane"; "family_name" := VStr "Jane" ]}).1
       "family_name" = VStr "Jane"
  /\ @express_validator.nonblank Sample.externals
       (express_validator.get
          ({[ "first_name" := VStr "Jane"; "family_name" := VStr "Jane" ]}
             : gmap string value) "first_name") = true.
Proof.
  assert (Halnum : validator.isAlphanumeric "Jane" = true) by reflexivity.
  assert (Hfirst_in : express_validator.get
            ({[ "first_name" := VStr "Jane"; "family_name" := VStr "Jane" ]}
               : gmap string value) "first_name" = VStr "Jane") by reflexivity.
  assert (Hfamily_in : express_validator.get
            ({[ "first_name" := VStr "Jane"; "family_name" := VStr "Jane" ]}
               : gmap string value) "family_name" = VStr "Jane") by reflexivity.
  split; [repeat split; assumption|].
  destruct (@alphanumeric_name_passes_update Sample.externals
              {[ "first_name" := VStr "Jane"; "family_name" := VStr "Jane" ]}
              "Jane" Halnum) as (Hfirst & Hfamily & Hnonblank).
  split; [exact (Hfirst Hfirst_in)|]. split; [exact (Hfamily Hfamily_in)|].
  exact (Hnonblank Hfirst_in).
Defined.

(** ** The sorted lists *)
Section Sorting.
Import Listing.

Lemma bson_leb_total a b : bson_leb a b = false -> bson_leb b a = true.
Proof.
  destruct a as [| |s|x], b as [| |t|y]; simpl; try done.
  - intros Hst. destruct (String.leb_total s t) as [Hle|Hle]; [congruence | done].
  - intros Hxy. apply Z.leb_le. apply Z.leb_gt in Hxy. lia.
Qed.

Context {A : Type} (key : A -> value).


Lemma insert_by_perm x l : insert_by key x l ≡ₚ x :: l.
Proof.
  induction l as [|y l IH]; [done|]. simpl.
  destruct (bson_leb (key x) (key y)); [done|].
  rewrite IH. apply Permutation_swap.
Qed.

Lemma sort_by_perm l : sort_by key l ≡ₚ l.
Proof.
  induction l as [|x l IH]; [done|]. unfold sort_by in *. simpl.
  by rewrite insert_by_perm, IH.
Qed.

Lemma insert_by_hd x y l :
  (Facts.key_le key) y x -> HdRel (Facts.key_le key) y l -> HdRel (Facts.key_le key) y (insert_by key x l).
Proof.
  intros Hyx Hhd. destruct l as [|z l]; simpl; [by constructor|].
  destruct (bson_leb (key x) (key z)); constructor; [done|].
  by inversion Hhd.
Qed.

Lemma insert_by_sorted x l : Sorted (Facts.key_le key) l -> Sorted (Facts.key_le key) (insert_by key x l).
Proof.
  induction l as [|y l IH]; intros Hs; simpl; [by repeat constructor|].
  inversion Hs as [|? ? Hl Hhd]; subst.
  destruct (bson_leb (key x) (key y)) eqn:Hxy.
  - constructor; [done|]. by constructor.
  - constructor; [by apply IH|].
    apply insert_by_hd; [|done]. by apply bson_leb_total.
Qed.

Lemma sort_by_sorted l : Sorted (Facts.key_le key) (sort_by key l).
Proof.
  induction l as [|x l IH]; [constructor|].
  unfold sort_by in *. simpl. by apply insert_by_sorted.
Qed.

End Sorting.

Lemma docs_elem_of {A : Type} (m : gmap string A) (x : A) :
  x ∈ Model.docs m <-> exists i, m !! i = Some x.
Proof.
  unfold Model.docs. rewrite list_elem_of_fmap. split.
  - intros ([i y] & -> & Hin). exists i. by apply elem_of_map_to_list.
  - intros (i & Hi). exists (i, x). split; [done|]. by apply elem_of_map_to_list.
Qed.

Lemma docs_length {A : Type} (m : gmap string A) : length (Model.docs m) = size m.
Proof. unfold Model.docs. by rewrite length_fmap, length_map_to_list. Qed.

(** X18: the author list shows every stored author once, by ascending
    family name.  The list that [author_list] renders is a permutation of
    the stored authors, neighbours are in the order of the sort key, and
    the store is not written. *)
Theorem author_list_sorted_permutation (req : request) (d : database) :
  exists l,
    Listing.author_list req d
    = (d, [Listing.PageRender "index"
             [("title", Listing.PString "Author List");
              ("author_list", Listing.PAuthors l);
              ("route", Listing.PString "author_list.ejs")]])
    /\ l ≡ₚ Model.docs (authors d)
    /\ Sorted (Facts.key_le Author.family_name) l
    /\ (forall a, a ∈ l <-> exists i, authors d !! i = Some a)
    /\ length l = size (authors d).
Proof.
  exists (Listing.Author_find_sorted d). unfold Listing.Author_find_sorted.
  split; [reflexivity|]. split; [apply sort_by_perm|].
  split; [apply (sort_by_sorted Author.family_name)|]. split.
  - intros a. by rewrite sort_by_perm, docs_elem_of.
  - by rewrite sort_by_perm, docs_length.
Qed.

(** X19: the book list shows every stored book once, by ascending title,
    each with its author looked up in the store ([null] when the reference
    resolves to nothing). *)
Theorem book_list_sorted_populated (req : request) (d : database) :
  exists l,
    Listing.book_list req d
    = (d, [Listing.PageRender "index"
             [("title", Listing.PString "Book List");
              ("book_list", Listing.PBooks l);
              ("route", Listing.PString "book_list.ejs")]])
    /\ Sorted (fun x y => String.leb (Listing.lb_title x) (Listing.lb_title y) = true) l
    /\ (forall x,
          x ∈ l
          <-> exists i b,
                books d !! i = Some b
                /\ x = Listing.mkListed (Book._id b) (Book.title b)
                                        (authors d !! Book.author b))
    /\ length l = size (books d).
Proof.
  exists (Listing.Book_find_sorted d). unfold Listing.Book_find_sorted.
  split; [reflexivity|]. split; [|split].
  - apply (Sorted_fmap _ (Facts.key_le (fun b => VStr (Book.title b)))).
    + intros x y Hxy. exact Hxy.
    + apply sort_by_sorted.
  - intros x. rewrite list_elem_of_fmap. split.
    + intros (b & -> & Hin). rewrite sort_by_perm, docs_elem_of in Hin.
      destruct Hin as (i & Hi). by exists i, b.
    + intros (i & b & Hi & ->). exists b. split; [done|].
      rewrite sort_by_perm, docs_elem_of. by exists i.
  - by rewrite length_fmap, sort_by_perm, docs_length.
Qed.

(** ** The counts of the home page *)
Section Counts.
Import Model.

Lemma filter_length_perm {A : Type} (f : A -> bool) (l l' : list A) :
  l ≡ₚ l' -> length (List.filter f l) = length (List.filter f l').
Proof.
  induction 1 as [|x l l' _ IH|x y l|l l' l'' _ IH1 _ IH2]; simpl.
  - done.
  - destruct (f x); simpl; by rewrite IH.
  - destruct (f x), (f y); done.
  - by rewrite IH1.
Qed.

Lemma docs_insert_fresh {A : Type} (m : gmap string A) i x :
  m !! i = None -> docs (<[i := x]> m) ≡ₚ x :: docs m.
Proof.
  intros Hfresh. unfold docs. by rewrite (map_to_list_insert _ _ _ Hfresh).
Qed.

Lemma filter_length_le {A : Type} (f : A -> bool) (l : list A) :
  length (List.filter f l) <= length l.
Proof. induction l as [|x l IH]; simpl; [lia|]. destruct (f x); simpl; lia. Qed.

End Counts.

(** X20: the home page never counts more available copies than copies:
    the number it shows for [book_instance_available_count] is at most the
    number it shows for [book_instance_count], and each of the other counts
    is the size of its collection. *)
Theorem home_available_at_most_all (req : request) (d : database) :
  exists books_n copies available authors_n genres_n,
    Listing.index req d
    = (d, [Listing.PageRender "index"
             [("title", Listing.PString "Local Library Home");
              ("book_count", Listing.PNumber books_n);
              ("book_instance_count", Listing.PNumber copies);
              ("book_instance_available_count", Listing.PNumber available);
              ("author_count", Listing.PNumber authors_n);
              ("genre_count", Listing.PNumber genres_n);
              ("route", Listing.PString "home.ejs")]])
    /\ available <= copies
    /\ books_n = size (books d)
    /\ copies = size (bookinstances d)
    /\ authors_n = size (authors d)
    /\ genres_n = size (genres d).
Proof.
  eexists _, _, _, _, _. split; [reflexivity|].
  split; [|by repeat split].
  unfold Listing.available_count. rewrite <- docs_length. apply filter_length_le.
Qed.

(** X21: the home page follows a create.  After a valid BookInstance
    create under a fresh identifier the page counts one copy more, one
    available copy more exactly when the escaped [status] is "Available",
    and the same books, authors and genres. *)
Theorem home_counts_follow_create `{Externals}
    (oid : string) (req req' : request) (d : database) :
  bookinstances d !! oid = None ->
  (express_validator.run_all BookInstanceController.bookinstance_create_post_chains
     (req_body req)).2 = [] ->
  let after := (BookInstanceController.bookinstance_create_post oid req d).1 in
  let status :=
    validator.escape
      (express_validator.toString (express_validator.get (req_body req) "status")) in
  Listing.index req' after
  = (after,
     [Listing.PageRender "index"
        [("title", Listing.PString "Local Library Home");
         ("book_count", Listing.PNumber (size (books d)));
         ("book_instance_count", Listing.PNumber (S (size (bookinstances d))));
         ("book_instance_available_count",
          Listing.PNumber
            (Listing.available_count d
             + (if String.eqb status "Available" then 1 else 0)));
         ("author_count", Listing.PNumber (size (authors d)));
         ("genre_count", Listing.PNumber (size (genres d)));
         ("route", Listing.PString "home.ejs")]]).
Proof.
  intros Hfresh Hvalid after status. unfold after.
  rewrite (bookinstance_create_post_valid _ _ _ Hvalid). cbn [fst].
  unfold Listing.index, Listing.available_count, Model.set_bookinstances.
  cbn [books bookinstances authors genres].
  rewrite (map_size_insert_None _ _ _ Hfresh).
  rewrite (filter_length_perm _ _ _ (docs_insert_fresh _ _ _ Hfresh)).
  cbn [List.filter BookInstance.status]. fold status.
  destruct (String.eqb_spec status "Available") as [Heq|Hne].
  - rewrite bool_decide_eq_true_2 by (by rewrite Heq). simpl.
    repeat f_equal. lia.
  - rewrite bool_decide_eq_false_2 by (intros [= Hbad]; by apply Hne).
    repeat f_equal. lia.
Qed.

Lemma home_counts_follow_create_witness :
  (bookinstances Sample.library !! "n1" = None
   /\ (@express_validator.run_all Sample.externals
         BookInstanceController.bookinstance_create_post_chains Sample.copy_form).2 = [])
  /\ (Listing.index (mkRequest "" ∅)
        (@BookInstanceController.bookinstance_create_post Sample.externals "n1"
           (mkRequest "" Sample.copy_form) Sample.library).1).2
     = [Listing.PageRender "index"
          [("title", Listing.PString "Local Library Home");
           ("book_count", Listing.PNumber 1);
           ("book_instance_count", Listing.PNumber 3);
           ("book_instance_available_count", Listing.PNumber 2);
           ("author_count", Listing.PNumber 2);
           ("genre_count", Listing.PNumber 0);
           ("route", Listing.PString "home.ejs")]].
Proof.
  assert (Hfresh : bookinstances Sample.library !! "n1" = None) by reflexivity.
  assert (Hvalid : (@express_validator.run_all Sample.externals
      BookInstanceController.bookinstance_create_post_chains Sample.copy_form).2 = [])
    by reflexivity.
  split; [by split|].
  rewrite (@home_counts_follow_create Sample.externals "n1"
             (mkRequest "" Sample.copy_form) (mkRequest "" ∅) Sample.library
             Hfresh Hvalid).
  reflexivity.
Defined.

(** X22: the detail page of a stored author lists exactly the books that
    refer to that author, each by its identifier, title and summary. *)
Theorem author_detail_lists_own_books (req : request) (d : database) (a : Author.t) :
  authors d !! params_id req = Some a ->
  exists l,
    AuthorController.author_detail req d
    = (d, [Render "index"
             [("title", DString "Author Detail");
              ("author", DAuthor (Some a));
              ("author_books", DBookSummaries l);
              ("route", DString "author_detail.ejs")]])
    /\ forall s,
         s ∈ l
         <-> exists i b,
               books d !! i = Some b
               /\ Book.author b = params_id req
               /\ s = Book.mkTitleSummary (Book._id b) (Book.title b) (Book.summary b).
Proof.
  intros Ha. exists (Model.books_by_author d (params_id req)).
  split; [by apply author_detail_found|].
  intros s. unfold Model.books_by_author. rewrite list_elem_of_fmap. split.
  - intros (b & -> & Hin). apply list_elem_of_In, filter_In in Hin as [Hin Heq].
    apply list_elem_of_In, docs_elem_of in Hin as (i & Hi).
    apply String.eqb_eq in Heq. by exists i, b.
  - intros (i & b & Hi & Heq & ->). exists b. split; [done|].
    apply list_elem_of_In, filter_In. split.
    + apply list_elem_of_In, docs_elem_of. by exists i.
    + by apply String.eqb_eq.
Qed.

Lemma author_detail_lists_own_books_witness :
  authors Sample.library !! "a1" = Some Sample.austen
  /\ exists l,
       AuthorController.author_detail (mkRequest "a1" ∅) Sample.library
       = (Sample.library,
          [Render "index"
             [("title", DString "Author Detail");
              ("author", DAuthor (Some Sample.austen));
              ("author_books", DBookSummaries l);
              ("route", DString "author_detail.ejs")]]).
Proof.
  assert (Ha : authors Sample.library !! "a1" = Some Sample.austen) by reflexivity.
  split; [exact Ha|].
  destruct (author_detail_lists_own_books (mkRequest "a1" ∅) Sample.library
              Sample.austen Ha) as (l & Hrender & _).
  exists l. exact Hrender.
Defined.

(** X23: the detail page of a stored book shows the book under its own
    title, with its author and genres looked up in the store, and lists
    exactly the copies whose [book] field is the path identifier. *)
Theorem book_detail_lists_own_copies (req : request) (d : database) (b : Book.t) :
  books d !! params_id req = Some b ->
  exists l,
    BookController.book_detail req d
    = (d, [Render "index"
             [("title", DString (Book.title b));
              ("book",
               DBook (Book.mkPopulated b (authors d !! Book.author b)
                        (omap (fun g => genres d !! g) (Book.genre b))));
              ("book_instances", DBookInstances l);
              ("route", DString "book_detail.ejs")]])
    /\ forall c,
         c ∈ l
         <-> (exists i, bookinstances d !! i = Some c)
             /\ BookInstance.book c = VStr (params_id req).
Proof.
  intros Hb. eexists. split; [by apply book_detail_found|].
  intros c. rewrite list_elem_of_In, filter_In, <- list_elem_of_In, docs_elem_of.
  by rewrite bool_decide_eq_true.
Qed.

Lemma book_detail_lists_own_copies_witness :
  books Sample.library !! "b1" = Some Sample.emma
  /\ exists l,
       (BookController.book_detail (mkRequest "b1" ∅) Sample.library).2
       = [Render "index"
            [("title", DString "Emma");
             ("book", DBook (Book.mkPopulated Sample.emma (Some Sample.austen) []));
             ("book_instances", DBookInstances l);
             ("route", DString "book_detail.ejs")]]
       /\ Sample.copy1 ∈ l /\ Sample.copy2 ∈ l.
Proof.
  assert (Hb : books Sample.library !! "b1" = Some Sample.emma) by reflexivity.
  split; [exact Hb|].
  destruct (book_detail_lists_own_copies (mkRequest "b1" ∅) Sample.library
              Sample.emma Hb) as (l & Hrender & Hin).
  exists l. split; [exact (f_equal snd Hrender)|]. split.
  - apply Hin. split; [exists "i1"; reflexivity | reflexivity].
  - apply Hin. split; [exists "i2"; reflexivity | reflexivity].
Defined.

(** X24: the BookInstance list shows every stored copy once, each with its
    book looked up in the store. *)
Theorem bookinstance_list_shows_every_copy `{Externals} (req : request) (d : database) :
  exists l,
    BookInstanceController.bookinstance_list req d
    = (d, [Render "index"
             [("title", DString "Book Instance List");
              ("bookinstance_list", DPopulatedInstances l);
              ("route", DString "bookinstance_list.ejs")]])
    /\ length l = size (bookinstances d)
    /\ BookInstance.doc <$> l = Model.docs (bookinstances d)
    /\ Forall
         (fun p =>
            BookInstance.book_doc p
            = match BookInstance.book (BookInstance.doc p) with
              | VStr b => books d !! b
              | _ => None
              end) l.
Proof.
  exists (Model.populate_instance d <$> Model.docs (bookinstances d)).
  split; [by destruct d|]. split; [by rewrite length_fmap, docs_length|]. split.
  - rewrite <- list_fmap_compose. by rewrite list_fmap_id.
  - apply Forall_fmap, Forall_forall. by intros c _.
Qed.
